(** * Ground detection of the lander arm (ow_lander/scripts/ground_detection.py)

    A shallow embedding of [SlidingWindow] and [GroundDetector].

    - Numbers are IEEE binary64 values (Rocq's primitive [float]), which is
      what Python floats and numpy's float64 arrays hold.
    - numpy arrays are objects: they live in a [heap] and the detector only
      keeps their addresses, so that copies ([copy.deepcopy]) and in-place
      updates ([r /= ...]) are visible in the model.
    - Exceptions are values of [result]; the detector and the heap reached
      when an exception is raised are returned with it.
    - What the program reads from its environment (the outcome of the tf2
      lookup, the clock of [rospy.get_time], the link-states message) is an
      argument of the call that reads it. *)

From Stdlib Require Import Floats ZArith Lia.
From stdpp Require Import base option list strings.

Set Warnings "-inexact-float".
Open Scope Z_scope.

(** ** Exceptions *)

Inductive exception : Set :=
  | AttributeError   (* [None.x] *)
  | TypeError        (* [None[0]], [float - None] *)
  | IndexError.      (* [deque().pop()], [list[i]] out of range *)

Inductive result (A : Type) : Type :=
  | Ok (a : A)
  | Raise (e : exception).
Arguments Ok {A} a.
Arguments Raise {A} e.

(** ** numpy: arrays of three float64 and the operations the script uses *)

Module np.

(** The value of [np.array([x, y, z])]. *)
Record ndarray : Set := array { item0 : float; item1 : float; item2 : float }.

#[global] Instance ndarray_inhabited : Inhabited ndarray :=
  populate (array nan nan nan).

Definition map1 (f : float -> float) (a : ndarray) : ndarray :=
  array (f (item0 a)) (f (item1 a)) (f (item2 a)).

Definition map2 (f : float -> float -> float) (a b : ndarray) : ndarray :=
  array (f (item0 a) (item0 b)) (f (item1 a) (item1 b)) (f (item2 a) (item2 b)).

(** [a - b], [a + b], [a / s] on values. *)
Definition subtract : ndarray -> ndarray -> ndarray := map2 PrimFloat.sub.
Definition add : ndarray -> ndarray -> ndarray := map2 PrimFloat.add.
Definition divide (a : ndarray) (s : float) : ndarray :=
  map1 (fun c => c / s)%float a.

(** [np.dot(a, b)]: the products are summed from the left. *)
Definition dot (a b : ndarray) : float :=
  (0 + item0 a * item0 b + item1 a * item1 b + item2 a * item2 b)%float.

(** [np.linalg.norm(a)] is [sqrt(a.dot(a))]. *)
Definition linalg_norm (a : ndarray) : float := PrimFloat.sqrt (dot a a).

Definition zeros : ndarray := array 0 0 0.

(** The number of rows as a float64. *)
Definition count (n : nat) : float :=
  PrimFloat.of_uint63 (Uint63.of_Z (Z.of_nat n)).

(** [np.mean(rows, axis=0)]: the rows are added up in the order in which
    they are iterated, starting from the identity of the sum, and the total
    is divided by the number of rows. *)
Definition sum_axis0 (rows : list ndarray) : ndarray := fold_left add rows zeros.
Definition mean_axis0 (rows : list ndarray) : ndarray :=
  divide (sum_axis0 rows) (count (length rows)).

(** [np.isclose(a, b, atol=atol)], with the default [rtol=1e-05]:
    [abs(a - b) <= atol + rtol * abs(b)]. *)
Definition isclose (a b atol : float) : bool :=
  (abs (a - b) <=? atol + 1e-05 * abs b)%float.

End np.

(** ** The heap of numpy arrays *)

(** An address is a natural number, and the heap is the list of the arrays
    that were created, in the order of their creation. *)
Abbreviation loc := nat (only parsing).
Abbreviation heap := (list np.ndarray) (only parsing).

(** A new array is stored at the first free address. *)
Definition alloc (v : np.ndarray) (h : heap) : loc * heap :=
  (length h, h ++ [v]).

(** Reading an array. *)
Definition deref (h : heap) (l : loc) : np.ndarray := h !!! l.

(** The operations of the script on array objects. Those that build an array
    return its address and the extended heap; [idiv] updates in place. *)
Definition np_array (x y z : float) (h : heap) : loc * heap :=
  alloc (np.array x y z) h.

Definition np_subtract (a b : loc) (h : heap) : loc * heap :=
  alloc (np.subtract (deref h a) (deref h b)) h.

Definition np_divide (a : loc) (s : float) (h : heap) : loc * heap :=
  alloc (np.divide (deref h a) s) h.

Definition np_mean_axis0 (rows : list loc) (h : heap) : loc * heap :=
  alloc (np.mean_axis0 (deref h <$> rows)) h.

Definition deepcopy (a : loc) (h : heap) : loc * heap :=
  alloc (deref h a) h.

(** [a /= s] *)
Definition np_idiv (a : loc) (s : float) (h : heap) : heap :=
  <[a := np.divide (deref h a) s]> h.

Definition np_linalg_norm (a : loc) (h : heap) : float := np.linalg_norm (deref h a).
Definition np_dot (a b : loc) (h : heap) : float := np.dot (deref h a) (deref h b).

(** ** SlidingWindow *)

Module SlidingWindow.
Section SlidingWindow.
Context {A B : Type}.

(** The deque is a list whose head is the left end. *)
Record t : Type := Build {
  _que : list A;
  _size : Z;
  _method : list A -> B
}.

Definition __init__ (size : Z) (method : list A -> B) : t :=
  {| _que := []; _size := size; _method := method |}.

(** [deque.pop()]: removes the right end, [IndexError] on an empty deque. *)
Definition pop (q : list A) : result (list A) :=
  match q with
  | [] => Raise IndexError
  | _ :: _ => Ok (removelast q)
  end.

(** [deque.appendleft(val)] *)
Definition appendleft (val : A) (q : list A) : list A := val :: q.

Definition append (self : t) (val : A) : result t :=
  if Z.of_nat (length (_que self)) >=? _size self then
    match pop (_que self) with
    | Raise e => Raise e
    | Ok q => Ok {| _que := appendleft val q; _size := _size self; _method := _method self |}
    end
  else
    Ok {| _que := appendleft val (_que self); _size := _size self; _method := _method self |}.

Definition valid (self : t) : bool :=
  Z.of_nat (length (_que self)) =? _size self.

Definition value (self : t) : B := _method self (_que self).

(** A stream of [append]s; the first exception stops it. *)
Fixpoint appends (self : t) (vals : list A) : result t :=
  match vals with
  | [] => Ok self
  | val :: vals =>
      match append self val with
      | Raise e => Raise e
      | Ok self' => appends self' vals
      end
  end.

End SlidingWindow.
Arguments t : clear implicits.
End SlidingWindow.

(** ** Messages and the environment *)

Module geometry_msgs.

(** [geometry_msgs.msg.Vector3]: the translation of a transform, and the
    position of a link (read through [.x], [.y], [.z] only). *)
Record Vector3 : Set := vector3 { x : float; y : float; z : float }.

(** [geometry_msgs.msg.Point], built by [Point(x, y, z)]. *)
Inductive Point : Set := point (x y z : float).

End geometry_msgs.
Import geometry_msgs.

Module gazebo_msgs.

(** Of a pose only [.position] is read. *)
Record Pose : Set := { position : Vector3 }.

Record LinkStates : Set := { name : list string; pose : list Pose }.

End gazebo_msgs.
Import gazebo_msgs.

(** What [self._buffer.lookup_transform("base_link", "l_scoop_tip", ...)]
    does: it returns a transform, of which the script reads the translation,
    or raises one of the three exceptions the script catches. *)
Inductive lookup_transform : Set :=
  | Transform (translation : Vector3)
  | LookupException
  | ConnectivityException
  | ExtrapolationException.

(** One call of [detect()] in the pull-based strategy reads the transform
    buffer and, when a position came back, the clock. *)
Record tick : Set := { tf : lookup_transform; clock : float }.

(** ** GroundDetector *)

(** The two bound methods [_check_ground_method] may hold. *)
Inductive check_ground_method : Set :=
  | bound_tf_2_method
  | bound_gazebo_link_states_method.

Definition check_ground_method_eqb (a b : check_ground_method) : bool :=
  match a, b with
  | bound_tf_2_method, bound_tf_2_method => true
  | bound_gazebo_link_states_method, bound_gazebo_link_states_method => true
  | _, _ => false
  end.

(** The two lambdas [_query_ground_position_method] may hold. *)
Inductive query_ground_position_method : Set :=
  | lambda_tf_lookup_position   (* lambda: self._tf_lookup_position(rospy.Duration(10)) *)
  | lambda_last_position.       (* lambda: self._last_position *)

(** The window of the detector holds addresses of velocity arrays, and its
    summarization method builds a new array. *)
Definition window := SlidingWindow.t loc (heap -> loc * heap).

Record GroundDetector : Type := {
  _last_position : option loc;
  _last_time : option float;
  _ground_detected : bool;
  _samples_skipped : Z;
  _trending_velocity : window;
  _reference_velocity : option loc;
  _check_ground_method : check_ground_method;
  _query_ground_position_method : query_ground_position_method
}.

Definition SKIP_SAMPLES_COUNT : Z := 5.
Definition ROLLING_AVERAGE_WINDOW : Z := 5.
Definition DIRECTION_TOLERANCE : float := 0.95%float.

(** Assignments to the attributes of [self]. *)
Definition set_last (self : GroundDetector) (p : option loc) (t : option float) :=
  {| _last_position := p; _last_time := t;
     _ground_detected := _ground_detected self;
     _samples_skipped := _samples_skipped self;
     _trending_velocity := _trending_velocity self;
     _reference_velocity := _reference_velocity self;
     _check_ground_method := _check_ground_method self;
     _query_ground_position_method := _query_ground_position_method self |}.

Definition set_ground_detected (self : GroundDetector) (b : bool) :=
  {| _last_position := _last_position self; _last_time := _last_time self;
     _ground_detected := b;
     _samples_skipped := _samples_skipped self;
     _trending_velocity := _trending_velocity self;
     _reference_velocity := _reference_velocity self;
     _check_ground_method := _check_ground_method self;
     _query_ground_position_method := _query_ground_position_method self |}.

Definition set_samples_skipped (self : GroundDetector) (n : Z) :=
  {| _last_position := _last_position self; _last_time := _last_time self;
     _ground_detected := _ground_detected self;
     _samples_skipped := n;
     _trending_velocity := _trending_velocity self;
     _reference_velocity := _reference_velocity self;
     _check_ground_method := _check_ground_method self;
     _query_ground_position_method := _query_ground_position_method self |}.

Definition set_trending_velocity (self : GroundDetector) (w : window) :=
  {| _last_position := _last_position self; _last_time := _last_time self;
     _ground_detected := _ground_detected self;
     _samples_skipped := _samples_skipped self;
     _trending_velocity := w;
     _reference_velocity := _reference_velocity self;
     _check_ground_method := _check_ground_method self;
     _query_ground_position_method := _query_ground_position_method self |}.

Definition set_reference_velocity (self : GroundDetector) (r : option loc) :=
  {| _last_position := _last_position self; _last_time := _last_time self;
     _ground_detected := _ground_detected self;
     _samples_skipped := _samples_skipped self;
     _trending_velocity := _trending_velocity self;
     _reference_velocity := r;
     _check_ground_method := _check_ground_method self;
     _query_ground_position_method := _query_ground_position_method self |}.

(** [reset]: the two method attributes are the only ones it leaves alone. *)
Definition reset (self : GroundDetector) : GroundDetector :=
  {| _last_position := None; _last_time := None;
     _ground_detected := false;
     _samples_skipped := 0;
     _trending_velocity := SlidingWindow.__init__ ROLLING_AVERAGE_WINDOW np_mean_axis0;
     _reference_velocity := None;
     _check_ground_method := _check_ground_method self;
     _query_ground_position_method := _query_ground_position_method self |}.

(** [__init__]: [reset()], then the strategy is fixed to [_tf_2_method], and
    the comparison with [_gazebo_link_states_method] selects the lambda. *)
Definition __init__ : GroundDetector :=
  let check := bound_tf_2_method in
  {| _last_position := None; _last_time := None;
     _ground_detected := false;
     _samples_skipped := 0;
     _trending_velocity := SlidingWindow.__init__ ROLLING_AVERAGE_WINDOW np_mean_axis0;
     _reference_velocity := None;
     _check_ground_method := check;
     _query_ground_position_method :=
       if check_ground_method_eqb check bound_gazebo_link_states_method
       then lambda_tf_lookup_position
       else lambda_last_position |}.

(** What one call leaves behind: its outcome, the detector and the heap. *)
Definition outcome (A : Type) : Type := result A * GroundDetector * heap.

Definition _check_condition (self : GroundDetector) (new_position : option Vector3)
    (now : float) (h : heap) : outcome bool :=
  match new_position with
  | None => (Raise AttributeError, self, h)                 (* [new_position.x] *)
  | Some p =>
    match _last_position self with
    | None =>
        let '(a, h) := np_array (x p) (y p) (z p) h in
        (Ok false, set_last self (Some a) (Some now), h)
    | Some last_position =>
        let '(current_position, h) := np_array (x p) (y p) (z p) h in
        let current_time := now in
        let '(delta_d, h) := np_subtract current_position last_position h in
        match _last_time self with
        | None => (Raise TypeError, self, h)                (* [current_time - None] *)
        | Some last_time =>
            let delta_t := (current_time - last_time)%float in
            if np.isclose delta_t 0.0 1e-4 then (Ok false, self, h)   (* [atol=1.e-4] *)
            else
              let self := set_last self (Some current_position) (Some current_time) in
              let '(velocity_z, h) := np_divide delta_d delta_t h in
              match SlidingWindow.append (_trending_velocity self) velocity_z with
              | Raise e => (Raise e, self, h)
              | Ok w =>
                  let self := set_trending_velocity self w in
                  match _reference_velocity self with
                  | None =>
                      if SlidingWindow.valid (_trending_velocity self) then
                        let self := set_samples_skipped self (_samples_skipped self + 1) in
                        if _samples_skipped self <=? SKIP_SAMPLES_COUNT then (Ok false, self, h)
                        else
                          let '(v, h) := SlidingWindow.value (_trending_velocity self) h in
                          (Ok false, set_reference_velocity self (Some v), h)
                      else (Ok false, self, h)
                  | Some reference_velocity =>
                      let '(r, h) := deepcopy reference_velocity h in
                      let h := np_idiv r (np_linalg_norm r h) h in
                      let '(v, h) := SlidingWindow.value (_trending_velocity self) h in
                      let '(t, h) := deepcopy v h in
                      let h := np_idiv t (np_linalg_norm t h) h in
                      let r_x_t := np_dot r t h in
                      (Ok (r_x_t <? DIRECTION_TOLERANCE)%float, self, h)
                  end
              end
        end
    end
  end.

(** [data.name.index(s)]: the first index of [s], or [None] for the
    [ValueError] that the handler catches. *)
Fixpoint index (names : list string) (s : string) : option nat :=
  match names with
  | [] => None
  | n :: names => if String.eqb n s then Some O else S <$> index names s
  end.

Definition _handle_link_states (self : GroundDetector) (data : LinkStates)
    (now : float) (h : heap) : outcome unit :=
  if _ground_detected self then (Ok tt, self, h)
  else
    match index (name data) "lander::l_scoop_tip" with
    | None => (Ok tt, self, h)
    | Some idx =>
        match pose data !! idx with
        | None => (Raise IndexError, self, h)
        | Some p =>
            match _check_condition self (Some (position p)) now h with
            | (Ok b, self, h) => (Ok tt, set_ground_detected self b, h)
            | (Raise e, self, h) => (Raise e, self, h)
            end
        end
    end.

Definition _gazebo_link_states_method (self : GroundDetector) (h : heap) : outcome bool :=
  (Ok (_ground_detected self), self, h).

(** The three exceptions are caught and turned into [None]. *)
Definition _tf_lookup_position (t : lookup_transform) : option Vector3 :=
  match t with
  | Transform translation => Some translation
  | LookupException | ConnectivityException | ExtrapolationException => None
  end.

Definition _tf_2_method (self : GroundDetector) (k : tick) (h : heap) : outcome bool :=
  _check_condition self (_tf_lookup_position (tf k)) (clock k) h.

Definition detect (self : GroundDetector) (k : tick) (h : heap) : outcome bool :=
  match _check_ground_method self with
  | bound_tf_2_method => _tf_2_method self k h
  | bound_gazebo_link_states_method => _gazebo_link_states_method self h
  end.

Section ground_position.

(** [position[i]] on a [Vector3] message, whose class is not part of the
    script. *)
Variable Vector3_getitem : Vector3 -> Z -> result float.

Definition ground_position (self : GroundDetector) (t : lookup_transform) (h : heap)
    : result Point :=
  match _query_ground_position_method self with
  | lambda_last_position =>
      match _last_position self with
      | None => Raise TypeError                             (* [None[0]] *)
      | Some position =>
          let a := deref h position in
          Ok (point (np.item0 a) (np.item1 a) (np.item2 a))
      end
  | lambda_tf_lookup_position =>
      match _tf_lookup_position t with
      | None => Raise TypeError                             (* [None[0]] *)
      | Some position =>
          match Vector3_getitem position 0 with
          | Raise e => Raise e
          | Ok p0 =>
              match Vector3_getitem position 1 with
              | Raise e => Raise e
              | Ok p1 =>
                  match Vector3_getitem position 2 with
                  | Raise e => Raise e
                  | Ok p2 => Ok (point p0 p1 p2)
                  end
              end
          end
      end
  end.

End ground_position.

(** ** Runs *)

(** Successive calls of [detect()], one per tick, on the same instance; a call
    that raises leaves the instance as it is at that point, and the caller
    goes on. The outcomes come in the order of the calls. *)
Fixpoint detect_all (self : GroundDetector) (h : heap) (ks : list tick)
    : list (result bool) * GroundDetector * heap :=
  match ks with
  | [] => ([], self, h)
  | k :: ks =>
      let '(r, self, h) := detect self k h in
      let '(rs, self, h) := detect_all self h ks in
      (r :: rs, self, h)
  end.

(** Successive deliveries of link-states messages to the subscriber. *)
Fixpoint handle_all (self : GroundDetector) (h : heap) (msgs : list (LinkStates * float))
    : GroundDetector * heap :=
  match msgs with
  | [] => (self, h)
  | (data, now) :: msgs =>
      let '(_, self, h) := _handle_link_states self data now h in
      handle_all self h msgs
  end.

(** A tick on which the lookup returns the translation [(x, y, z)] at time [t]. *)
Definition sample (x y z t : float) : tick :=
  {| tf := Transform (vector3 x y z); clock := t |}.

(** A position [s.1] delivered by the lookup at time [s.2]. *)
Definition tick_of (s : Vector3 * float) : tick := {| tf := Transform s.1; clock := s.2 |}.

(** ** Vocabulary of the properties *)

(** The window read from its right end to its left end: oldest value first. *)
Definition arrival {A B} (w : SlidingWindow.t A B) : list A := rev (SlidingWindow._que w).

(** A detector on a heap: the time is recorded with the position, the
    addresses it keeps are addresses of arrays, and the window is the one
    [reset] builds. *)
Definition wf (self : GroundDetector) (h : heap) : Prop :=
  (is_Some (_last_position self) -> is_Some (_last_time self))
  /\ (forall l, _last_position self = Some l -> (l < length h)%nat)
  /\ (forall l, _reference_velocity self = Some l -> (l < length h)%nat)
  /\ Forall (fun l => (l < length h)%nat) (SlidingWindow._que (_trending_velocity self))
  /\ SlidingWindow._size (_trending_velocity self) = ROLLING_AVERAGE_WINDOW
  /\ SlidingWindow._method (_trending_velocity self) = np_mean_axis0.

(** [a / np.linalg.norm(a)] *)
Definition unit_vector (a : np.ndarray) : np.ndarray := np.divide a (np.linalg_norm a).

(** The dot product of the two unit vectors. *)
Definition cosine_similarity (a b : np.ndarray) : float :=
  np.dot (unit_vector a) (unit_vector b).

(** The vector the window summarizes to: the mean of the arrays it holds. *)
Definition trending (h : heap) (w : window) : np.ndarray :=
  np.mean_axis0 (deref h <$> SlidingWindow._que w).

(** Every component is [0.0] or [-0.0]. *)
Definition is_zero_vector (a : np.ndarray) : bool :=
  ((np.item0 a =? 0) && (np.item1 a =? 0) && (np.item2 a =? 0))%float.


(** The arrays an accepted sample creates before the window is updated. *)
Definition current_position (p : Vector3) : np.ndarray := np.array (x p) (y p) (z p).
Definition delta_d (p : Vector3) (last : np.ndarray) : np.ndarray :=
  np.subtract (current_position p) last.
Definition velocity (p : Vector3) (last : np.ndarray) (delta_t : float) : np.ndarray :=
  np.divide (delta_d p last) delta_t.

(** The window after [append(val)], when it does not raise. *)
Definition pushed (w : window) (val : loc) : window :=
  {| SlidingWindow._que :=
       val :: (if Z.of_nat (length (SlidingWindow._que w)) >=? SlidingWindow._size w
               then removelast (SlidingWindow._que w) else SlidingWindow._que w);
     SlidingWindow._size := SlidingWindow._size w;
     SlidingWindow._method := SlidingWindow._method w |}.

(** The four ways of [_check_condition] through a position, on a well-formed
    detector: the first sample of a cycle, a sample that is dropped, an
    accepted sample before the reference velocity is set, and one after. *)
Inductive step (self : GroundDetector) (h : heap) (p : Vector3) (now : float)
    : result bool -> GroundDetector -> heap -> Prop :=
  | step_first :
      _last_position self = None ->
      step self h p now (Ok false) (set_last self (Some (length h)) (Some now))
        (h ++ [current_position p])
  | step_discard lp lt :
      _last_position self = Some lp -> _last_time self = Some lt ->
      np.isclose (now - lt) 0 1e-4 = true ->
      step self h p now (Ok false) self (h ++ [current_position p; delta_d p (deref h lp)])
  | step_baseline lp lt :
      _last_position self = Some lp -> _last_time self = Some lt ->
      np.isclose (now - lt) 0 1e-4 = false ->
      _reference_velocity self = None ->
      let h3 := h ++ [current_position p; delta_d p (deref h lp);
                      velocity p (deref h lp) (now - lt)] in
      let w := pushed (_trending_velocity self) (length h + 2) in
      let self1 := set_trending_velocity (set_last self (Some (length h)) (Some now)) w in
      let self2 := set_samples_skipped self1 (_samples_skipped self + 1) in
      step self h p now (Ok false)
        (if SlidingWindow.valid w then
           if _samples_skipped self + 1 <=? SKIP_SAMPLES_COUNT then self2
           else set_reference_velocity self2 (Some (length h + 3)%nat)
         else self1)
        (if SlidingWindow.valid w && negb (_samples_skipped self + 1 <=? SKIP_SAMPLES_COUNT)
         then h3 ++ [trending h3 w] else h3)
  | step_compare lp lt ref :
      _last_position self = Some lp -> _last_time self = Some lt ->
      np.isclose (now - lt) 0 1e-4 = false ->
      _reference_velocity self = Some ref ->
      let h3 := h ++ [current_position p; delta_d p (deref h lp);
                      velocity p (deref h lp) (now - lt)] in
      let w := pushed (_trending_velocity self) (length h + 2) in
      step self h p now
        (Ok (cosine_similarity (deref h ref) (trending h3 w) <? DIRECTION_TOLERANCE)%float)
        (set_trending_velocity (set_last self (Some (length h)) (Some now)) w)
        (h3 ++ [unit_vector (deref h ref); trending h3 w; unit_vector (trending h3 w)]).

(** After [k] calls in a cycle no reference velocity is set, the window holds
    at most [k - 1] velocities and the skip counter is at most [k - 5]. *)
Definition warming (k : nat) (self : GroundDetector) : Prop :=
  _reference_velocity self = None
  /\ (k = 0%nat -> _last_position self = None)
  /\ (length (SlidingWindow._que (_trending_velocity self)) <= k - 1)%nat
  /\ _samples_skipped self <= Z.of_nat (k - 5).

(** The samples come more than the tolerance apart, the first one after
    time [t]. *)
Fixpoint spaced_from (t : float) (samples : list (Vector3 * float)) : bool :=
  match samples with
  | [] => true
  | s :: samples => negb (np.isclose (s.2 - t) 0 1e-4) && spaced_from s.2 samples
  end.

Definition spaced (samples : list (Vector3 * float)) : bool :=
  match samples with
  | [] => true
  | s :: samples => spaced_from s.2 samples
  end.

(** The detector after [k >= 1] accepted samples of a cycle, the last one at
    time [t]. *)
Definition cycle (k : nat) (t : float) (self : GroundDetector) : Prop :=
  is_Some (_last_position self)
  /\ _last_time self = Some t
  /\ length (SlidingWindow._que (_trending_velocity self)) = Nat.min (k - 1) 5
  /\ _samples_skipped self = Z.of_nat (k - 5)
  /\ (if decide (k <= 10)%nat then _reference_velocity self = None
      else is_Some (_reference_velocity self)).

(** ** Sample runs, one tick per second *)

(** The position [(x, y, z)] read at time [t]. *)
Definition at_time (x y z t : float) : Vector3 * float := (vector3 x y z, t).

(** The tip goes down by one unit per second. *)
Definition steady_samples : list (Vector3 * float) :=
  [at_time 0 0 0 0; at_time 0 0 (-1) 1; at_time 0 0 (-2) 2; at_time 0 0 (-3) 3;
   at_time 0 0 (-4) 4; at_time 0 0 (-5) 5; at_time 0 0 (-6) 6; at_time 0 0 (-7) 7;
   at_time 0 0 (-8) 8; at_time 0 0 (-9) 9; at_time 0 0 (-10) 10; at_time 0 0 (-11) 11].
Definition steady_descent : list tick := tick_of <$> steady_samples.

(** After the descent the tip moves sideways for two seconds, then goes down
    again. *)
Definition sideways_then_down : list tick :=
  steady_descent ++
  [sample 1 0 (-11) 12; sample 2 0 (-11) 13;
   sample 2 0 (-12) 14; sample 2 0 (-13) 15; sample 2 0 (-14) 16; sample 2 0 (-15) 17].

(** After the descent the tip rests; [rest_tick t] is a tick of the rest. *)
Definition rest_tick (t : float) : tick := sample 0 0 (-11) t.
Definition descent_then_rest : list tick :=
  steady_descent ++ [rest_tick 12; rest_tick 13; rest_tick 14; rest_tick 15].


(** ** The values a detector holds *)

(** The attributes of a detector that the algorithm reads, with every array
    replaced by its contents. *)
Record values : Type := {
  last_position_value : option np.ndarray;
  last_time_value : option float;
  ground_detected_value : bool;
  samples_skipped_value : Z;
  trending_velocity_values : SlidingWindow.t np.ndarray np.ndarray;
  reference_velocity_value : option np.ndarray
}.

Definition observe (self : GroundDetector) (h : heap) : values :=
  {| last_position_value := deref h <$> _last_position self;
     last_time_value := _last_time self;
     ground_detected_value := _ground_detected self;
     samples_skipped_value := _samples_skipped self;
     trending_velocity_values :=
       {| SlidingWindow._que := deref h <$> SlidingWindow._que (_trending_velocity self);
          SlidingWindow._size := SlidingWindow._size (_trending_velocity self);
          SlidingWindow._method := np.mean_axis0 |};
     reference_velocity_value := deref h <$> _reference_velocity self |}.

(** The statements of [_check_condition] on a position, run on values. *)
Definition check_values (o : values) (p : Vector3) (now : float) : result bool * values :=
  match last_position_value o with
  | None =>
      (Ok false,
       {| last_position_value := Some (current_position p);
          last_time_value := Some now;
          ground_detected_value := ground_detected_value o;
          samples_skipped_value := samples_skipped_value o;
          trending_velocity_values := trending_velocity_values o;
          reference_velocity_value := reference_velocity_value o |})
  | Some last =>
      match last_time_value o with
      | None => (Raise TypeError, o)
      | Some last_time =>
          let delta_t := (now - last_time)%float in
          if np.isclose delta_t 0 1e-4 then (Ok false, o)
          else
            match SlidingWindow.append (trending_velocity_values o) (velocity p last delta_t) with
            | Raise e =>
                (Raise e,
                 {| last_position_value := Some (current_position p);
                    last_time_value := Some now;
                    ground_detected_value := ground_detected_value o;
                    samples_skipped_value := samples_skipped_value o;
                    trending_velocity_values := trending_velocity_values o;
                    reference_velocity_value := reference_velocity_value o |})
            | Ok w =>
                let accepted skipped reference :=
                  {| last_position_value := Some (current_position p);
                     last_time_value := Some now;
                     ground_detected_value := ground_detected_value o;
                     samples_skipped_value := skipped;
                     trending_velocity_values := w;
                     reference_velocity_value := reference |} in
                match reference_velocity_value o with
                | None =>
                    if SlidingWindow.valid w then
                      if samples_skipped_value o + 1 <=? SKIP_SAMPLES_COUNT
                      then (Ok false, accepted (samples_skipped_value o + 1) None)
                      else (Ok false,
                            accepted (samples_skipped_value o + 1) (Some (SlidingWindow.value w)))
                    else (Ok false, accepted (samples_skipped_value o) None)
                | Some reference =>
                    (Ok (cosine_similarity reference (SlidingWindow.value w)
                         <? DIRECTION_TOLERANCE)%float,
                     accepted (samples_skipped_value o) (Some reference))
                end
            end
      end
  end.

(** What the counter, the reference velocity and the window of a detector
    have to do with each other. *)
Definition counter_invariant (self : GroundDetector) : Prop :=
  0 <= _samples_skipped self <= SKIP_SAMPLES_COUNT + 1
  /\ (_reference_velocity self = None <-> _samples_skipped self <= SKIP_SAMPLES_COUNT)
  /\ (1 <= _samples_skipped self -> SlidingWindow.valid (_trending_velocity self) = true)
  /\ (length (SlidingWindow._que (_trending_velocity self)) <= 5)%nat.

(** Whether [_check_condition] takes a position read at time [now] as the
    new last position: it does for the first sample of a cycle and for a
    sample that is not within the tolerance of the last time. *)
Definition accepts (self : GroundDetector) (now : float) : bool :=
  match _last_position self, _last_time self with
  | None, _ => true
  | Some _, Some last_time => negb (np.isclose (now - last_time) 0 1e-4)
  | Some _, None => false
  end.

(** Some component is NaN. *)
Definition has_nan (a : np.ndarray) : bool :=
  is_nan (np.item0 a) || is_nan (np.item1 a) || is_nan (np.item2 a).

(** The name [_handle_link_states] looks for. *)
Definition l_scoop_tip : string := "lander::l_scoop_tip".

(** A link-states message of two links, the second of which is the tip at
    [(x, y, z)], delivered at time [t]. *)
Definition tip_message (x y z t : float) : LinkStates * float :=
  ({| name := ["lander::base_link"; l_scoop_tip];
      pose := [{| position := vector3 0 0 0 |}; {| position := vector3 x y z |}] |}, t).

(** The descent and the two seconds sideways, as messages. *)
Definition sideways_messages : list (LinkStates * float) :=
  [tip_message 0 0 0 0; tip_message 0 0 (-1) 1; tip_message 0 0 (-2) 2;
   tip_message 0 0 (-3) 3; tip_message 0 0 (-4) 4; tip_message 0 0 (-5) 5;
   tip_message 0 0 (-6) 6; tip_message 0 0 (-7) 7; tip_message 0 0 (-8) 8;
   tip_message 0 0 (-9) 9; tip_message 0 0 (-10) 10; tip_message 0 0 (-11) 11;
   tip_message 1 0 (-11) 12; tip_message 2 0 (-11) 13].

(** The message [m] brings the sample [s]: it is delivered at the time of
    [s], and the pose at the index of the tip has the position of [s]. *)
Definition carries (m : LinkStates * float) (s : Vector3 * float) : Prop :=
  m.2 = s.2
  /\ exists i ps,
       index (name m.1) l_scoop_tip = Some i /\ pose m.1 !! i = Some ps /\ position ps = s.1.

(** * Properties *)

(** ** SlidingWindow *)

Section window_facts.
Context {A B : Type}.
Implicit Types (w : SlidingWindow.t A B) (q vals : list A) (val : A).

Lemma rev_removelast q : rev (removelast q) = tail (rev q).
Proof.
  induction q as [|a q' _] using rev_ind; [reflexivity|].
  rewrite removelast_last, rev_unit. reflexivity.
Qed.

Lemma tail_drop q (k : nat) : tail (drop k q) = drop (S k) q.
Proof.
  revert k. induction q as [|a q IH]; intros [|k]; try reflexivity.
  cbn [drop]. rewrite IH. reflexivity.
Qed.

Lemma length_removelast q : length (removelast q) = (length q - 1)%nat.
Proof.
  induction q as [|a q' _] using rev_ind; [reflexivity|].
  rewrite removelast_last, length_app. cbn [length]. lia.
Qed.

Lemma Forall_removelast (P : A -> Prop) q : Forall P q -> Forall P (removelast q).
Proof.
  induction q as [|a q' _] using rev_ind; [auto|].
  rewrite removelast_last, Forall_app. tauto.
Qed.

Lemma pop_nonempty q : (0 < length q)%nat -> SlidingWindow.pop q = Ok (removelast q).
Proof. destruct q; [simpl; lia | reflexivity]. Qed.

(** One [append] on a window of capacity at least one: it does not raise,
    and in arrival order the oldest value leaves when the window is full. *)
Lemma append_arrival w val :
  1 <= SlidingWindow._size w ->
  exists w',
    SlidingWindow.append w val = Ok w'
    /\ SlidingWindow._size w' = SlidingWindow._size w
    /\ SlidingWindow._method w' = SlidingWindow._method w
    /\ arrival w' =
         (if Z.of_nat (length (arrival w)) >=? SlidingWindow._size w
          then tail (arrival w) else arrival w) ++ [val].
Proof.
  intros HN. unfold SlidingWindow.append, arrival. rewrite length_rev.
  destruct (Z.geb_spec (Z.of_nat (length (SlidingWindow._que w))) (SlidingWindow._size w))
    as [Hfull|Hroom].
  - rewrite pop_nonempty by lia.
    eexists. split; [reflexivity|]. repeat split.
    cbn [SlidingWindow._que SlidingWindow.appendleft rev]. rewrite rev_removelast. reflexivity.
  - eexists. split; [reflexivity|]. repeat split.
Qed.

(** A window that holds the last values of [seen] holds, after the appends
    of [vals], the last values of [seen ++ vals]. *)
Lemma appends_arrival vals : forall w (seen : list A),
  1 <= SlidingWindow._size w ->
  arrival w = drop (length seen - Z.to_nat (SlidingWindow._size w)) seen ->
  exists w',
    SlidingWindow.appends w vals = Ok w'
    /\ SlidingWindow._size w' = SlidingWindow._size w
    /\ SlidingWindow._method w' = SlidingWindow._method w
    /\ arrival w' =
         drop (length (seen ++ vals) - Z.to_nat (SlidingWindow._size w)) (seen ++ vals).
Proof.
  induction vals as [|val vals IH]; intros w seen HN Hw.
  - exists w. rewrite app_nil_r. auto.
  - destruct (append_arrival w val HN) as (w1 & Happ & Hsize & Hmeth & Harr).
    cbn [SlidingWindow.appends]. rewrite Happ.
    destruct (IH w1 (seen ++ [val])) as (w' & Hrun & Hsize' & Hmeth' & Harr').
    + lia.
    + rewrite Harr, Hw, Hsize. rewrite length_drop, length_app. cbn [length].
      set (n := Z.to_nat (SlidingWindow._size w)).
      assert (Hn : (1 <= n)%nat) by (subst n; lia).
      destruct (Z.geb_spec (Z.of_nat (length seen - (length seen - n))) (SlidingWindow._size w))
        as [Hfull|Hroom].
      * assert (Hle : (n <= length seen)%nat) by lia.
        rewrite tail_drop.
        replace (length seen + 1 - n)%nat with (S (length seen - n)) by lia.
        rewrite drop_app_le by lia. reflexivity.
      * assert (Hlt : (length seen < n)%nat) by lia.
        replace (length seen - n)%nat with 0%nat by lia.
        replace (length seen + 1 - n)%nat with 0%nat by lia.
        reflexivity.
    + exists w'. rewrite Hrun, Hsize', Hmeth', Harr', Hsize, Hmeth, <- app_assoc. auto.
Qed.

(** C5. For a window of capacity [N >= 1] and any stream [vals] of appends
    from the empty window: no append raises; the deque never holds more than
    [N] values; [valid] is true exactly when at least [N] values have been
    appended (so it stays true once it is); and the deque holds the [N] most
    recently appended values (all of them while there are fewer), oldest at
    its right end and newest at its left end, so that read from right to left
    they come in arrival order. *)
Theorem sliding_window_fifo (N : Z) (method : list A -> B) vals :
  1 <= N ->
  exists w,
    SlidingWindow.appends (SlidingWindow.__init__ N method) vals = Ok w
    /\ Z.of_nat (length (SlidingWindow._que w)) <= N
    /\ (SlidingWindow.valid w = true <-> N <= Z.of_nat (length vals))
    /\ arrival w = drop (length vals - Z.to_nat N) vals.
Proof.
  intros HN.
  destruct (appends_arrival vals (SlidingWindow.__init__ N method) [] HN)
    as (w & Hrun & Hsize & _ & Harr); [reflexivity|].
  cbn [app SlidingWindow.__init__ SlidingWindow._size] in Harr, Hsize.
  exists w. split; [exact Hrun|].
  assert (Hlen : length (SlidingWindow._que w)
                 = (length vals - (length vals - Z.to_nat N))%nat).
  { rewrite <- (length_rev (SlidingWindow._que w)). fold (arrival w).
    rewrite Harr, length_drop. reflexivity. }
  split; [lia|]. split; [|exact Harr].
  unfold SlidingWindow.valid. rewrite Hsize, Z.eqb_eq. lia.
Qed.

End window_facts.

Lemma sliding_window_fifo_witness :
  1 <= 2
  /\ exists w,
       SlidingWindow.appends (SlidingWindow.__init__ 2 (@length nat)) [7; 8; 9]%nat = Ok w
       /\ Z.of_nat (length (SlidingWindow._que w)) <= 2
       /\ (SlidingWindow.valid w = true <-> 2 <= Z.of_nat (length [7; 8; 9]%nat))
       /\ arrival w = drop (length [7; 8; 9]%nat - Z.to_nat 2) [7; 8; 9]%nat.
Proof.
  split; [lia|]. apply (sliding_window_fifo 2 (@length nat) [7; 8; 9]%nat). lia.
Defined.

(** ** Arrays on the heap *)

Lemma deref_app_l h ext l : (l < length h)%nat -> deref (h ++ ext) l = deref h l.
Proof. intros Hl. unfold deref. apply lookup_total_app_l, Hl. Qed.

Lemma deref_alloc h v : deref (h ++ [v]) (length h) = v.
Proof. unfold deref. rewrite lookup_total_app_r, Nat.sub_diag by lia. reflexivity. Qed.

Lemma np_idiv_alloc h v s : np_idiv (length h) s (h ++ [v]) = h ++ [np.divide v s].
Proof.
  unfold np_idiv. rewrite deref_alloc.
  rewrite <- (Nat.add_0_r (length h)) at 1. rewrite insert_app_r. reflexivity.
Qed.

Lemma deref_fmap_app_l h ext (ls : list loc) :
  Forall (fun l => (l < length h)%nat) ls -> deref (h ++ ext) <$> ls = deref h <$> ls.
Proof.
  induction 1 as [|l ls Hl _ IH]; [reflexivity|].
  cbn [fmap list_fmap]. rewrite deref_app_l by exact Hl. f_equal. exact IH.
Qed.

(** The comparison of the directions, as the six lines of the [else] branch
    run it on the heap. *)
Lemma compare_directions (w : window) (ref : loc) (h : heap) :
  (ref < length h)%nat ->
  Forall (fun l => (l < length h)%nat) (SlidingWindow._que w) ->
  SlidingWindow._method w = np_mean_axis0 ->
  (let '(r, h1) := deepcopy ref h in
   let h2 := np_idiv r (np_linalg_norm r h1) h1 in
   let '(v, h3) := SlidingWindow.value w h2 in
   let '(t, h4) := deepcopy v h3 in
   let h5 := np_idiv t (np_linalg_norm t h4) h4 in
   (np_dot r t h5, h5))
  = (cosine_similarity (deref h ref) (trending h w),
     h ++ [unit_vector (deref h ref); trending h w; unit_vector (trending h w)]).
Proof.
  intros Href Hw Hm. unfold deepcopy at 1, alloc.
  unfold np_linalg_norm at 1. rewrite deref_alloc, np_idiv_alloc.
  unfold SlidingWindow.value. rewrite Hm. unfold np_mean_axis0, alloc.
  rewrite deref_fmap_app_l by exact Hw. fold (trending h w). fold (unit_vector (deref h ref)).
  unfold deepcopy, alloc. rewrite deref_alloc.
  unfold np_linalg_norm. rewrite deref_alloc, np_idiv_alloc. fold (unit_vector (trending h w)).
  unfold np_dot, cosine_similarity.
  rewrite !length_app. cbn [length].
  f_equal.
  - f_equal.
    + rewrite <- !app_assoc. cbn [app]. 
      unfold deref. rewrite lookup_total_app_r by lia. rewrite Nat.sub_diag. reflexivity.
    + unfold deref. rewrite lookup_total_app_r by (rewrite !length_app; cbn [length]; lia).
      rewrite !length_app. cbn [length].
      replace (length h + 1 + 1 - (length h + 1 + 1))%nat with 0%nat by lia. reflexivity.
  - rewrite <- !app_assoc. reflexivity.
Qed.

Lemma trending_final (w : window) (h3 : list np.ndarray) ext :
  Forall (fun l => (l < length h3)%nat) (SlidingWindow._que w) ->
  trending (h3 ++ ext) w = trending h3 w.
Proof. intros Hw. unfold trending. rewrite deref_fmap_app_l by exact Hw. reflexivity. Qed.

(** ** The ways through [_check_condition] *)

Lemma append_pushed (w : window) val :
  1 <= SlidingWindow._size w -> SlidingWindow.append w val = Ok (pushed w val).
Proof.
  intros HN. unfold SlidingWindow.append, pushed.
  destruct (Z.geb_spec (Z.of_nat (length (SlidingWindow._que w))) (SlidingWindow._size w)).
  - rewrite pop_nonempty by lia. reflexivity.
  - reflexivity.
Qed.

Lemma pushed_allocated (w : window) val (h : list np.ndarray) ext :
  Forall (fun l => (l < length h)%nat) (SlidingWindow._que w) ->
  (val < length (h ++ ext))%nat ->
  Forall (fun l => (l < length (h ++ ext))%nat) (SlidingWindow._que (pushed w val)).
Proof.
  intros Hw Hval. cbn [pushed SlidingWindow._que]. constructor; [exact Hval|].
  assert (Hw' : Forall (fun l => (l < length (h ++ ext))%nat) (SlidingWindow._que w)).
  { eapply Forall_impl; [exact Hw|]. intros l Hl. cbn beta in *. rewrite length_app. lia. }
  destruct (_ >=? _); [apply Forall_removelast|]; exact Hw'.
Qed.

Lemma length_pushed (w : window) val :
  (length (SlidingWindow._que (pushed w val)) <= S (length (SlidingWindow._que w)))%nat.
Proof.
  cbn [pushed SlidingWindow._que length].
  destruct (_ >=? _); [rewrite length_removelast|]; lia.
Qed.

Lemma length_pushed_exact (w : window) val :
  SlidingWindow._size w = 5 ->
  (length (SlidingWindow._que w) <= 5)%nat ->
  length (SlidingWindow._que (pushed w val)) = Nat.min (S (length (SlidingWindow._que w))) 5.
Proof.
  intros Hsize Hlen. cbn [pushed SlidingWindow._que length]. rewrite Hsize.
  destruct (Z.geb_spec (Z.of_nat (length (SlidingWindow._que w))) 5);
    [rewrite length_removelast|]; lia.
Qed.

(** A failed lookup reaches [new_position.x] with [new_position = None]. *)
Lemma check_condition_None self now h :
  _check_condition self None now h = (Raise AttributeError, self, h).
Proof. reflexivity. Qed.

(** The first sample of a cycle is only recorded. *)
Lemma check_condition_first self p now h :
  _last_position self = None ->
  _check_condition self (Some p) now h
  = (Ok false, set_last self (Some (length h)) (Some now), h ++ [current_position p]).
Proof. intros H. unfold _check_condition. rewrite H. reflexivity. Qed.

(** A sample that comes too soon after the last one is dropped. *)
Lemma check_condition_discard self p now h lp lt :
  _last_position self = Some lp -> _last_time self = Some lt ->
  np.isclose (now - lt) 0 1e-4 = true ->
  _check_condition self (Some p) now h
  = (Ok false, self, h ++ [current_position p; delta_d p (deref (h ++ [current_position p]) lp)]).
Proof.
  intros Hp Ht Hclose. unfold _check_condition. rewrite Hp, Ht.
  unfold np_array, np_subtract, alloc. rewrite Hclose, deref_alloc, <- app_assoc. reflexivity.
Qed.

(** An accepted sample while no reference velocity is set. *)
Lemma check_condition_baseline self p now h lp lt :
  wf self h ->
  _last_position self = Some lp -> _last_time self = Some lt ->
  np.isclose (now - lt) 0 1e-4 = false ->
  _reference_velocity self = None ->
  let h3 := h ++ [current_position p; delta_d p (deref h lp); velocity p (deref h lp) (now - lt)] in
  let w := pushed (_trending_velocity self) (length h + 2) in
  let self1 := set_trending_velocity (set_last self (Some (length h)) (Some now)) w in
  let self2 := set_samples_skipped self1 (_samples_skipped self + 1) in
  _check_condition self (Some p) now h =
    if SlidingWindow.valid w then
      if _samples_skipped self + 1 <=? SKIP_SAMPLES_COUNT then (Ok false, self2, h3)
      else (Ok false, set_reference_velocity self2 (Some (length h + 3)%nat), h3 ++ [trending h3 w])
    else (Ok false, self1, h3).
Proof.
  intros (Htime & Hlp & Href & Hque & Hsize & Hmeth) Hp Ht Hclose Hnone. cbn zeta.
  unfold _check_condition. rewrite Hp, Ht.
  unfold np_array, np_subtract, alloc. rewrite Hclose, deref_alloc.
  rewrite (deref_app_l h) by eauto.
  unfold np_divide, alloc. rewrite deref_alloc. rewrite !length_app. cbn [length].
  cbn [set_last _trending_velocity].
  rewrite append_pushed by (rewrite Hsize; unfold ROLLING_AVERAGE_WINDOW; lia).
  replace (length h + 1 + 1)%nat with (length h + 2)%nat by lia.
  cbn [set_trending_velocity set_last _reference_velocity _trending_velocity _samples_skipped set_samples_skipped].
  rewrite Hnone. 
  rewrite <- !app_assoc. cbn [app].
  fold (current_position p). fold (delta_d p (deref h lp)). fold (velocity p (deref h lp) (now - lt)).
  destruct (SlidingWindow.valid _); [|reflexivity].
  destruct (_ <=? _); [reflexivity|].
  unfold SlidingWindow.value. cbn [pushed SlidingWindow._method]. rewrite Hmeth.
  unfold np_mean_axis0, alloc. rewrite !length_app. cbn [length].
  rewrite <- ?app_assoc. reflexivity.
Qed.

(** An accepted sample once the reference velocity is set. *)
Lemma check_condition_compare self p now h lp lt ref :
  wf self h ->
  _last_position self = Some lp -> _last_time self = Some lt ->
  np.isclose (now - lt) 0 1e-4 = false ->
  _reference_velocity self = Some ref ->
  let h3 := h ++ [current_position p; delta_d p (deref h lp); velocity p (deref h lp) (now - lt)] in
  let w := pushed (_trending_velocity self) (length h + 2) in
  let self1 := set_trending_velocity (set_last self (Some (length h)) (Some now)) w in
  _check_condition self (Some p) now h =
    (Ok (cosine_similarity (deref h ref) (trending h3 w) <? DIRECTION_TOLERANCE)%float,
     self1,
     h3 ++ [unit_vector (deref h ref); trending h3 w; unit_vector (trending h3 w)]).
Proof.
  intros (Htime & Hlp & Href & Hque & Hsize & Hmeth) Hp Ht Hclose Hsome. cbn zeta.
  unfold _check_condition. rewrite Hp, Ht.
  unfold np_array, np_subtract, alloc. rewrite Hclose, deref_alloc.
  rewrite (deref_app_l h) by eauto.
  unfold np_divide, alloc. rewrite deref_alloc. rewrite !length_app. cbn [length].
  cbn [set_last _trending_velocity].
  rewrite append_pushed by (rewrite Hsize; unfold ROLLING_AVERAGE_WINDOW; lia).
  replace (length h + 1 + 1)%nat with (length h + 2)%nat by lia.
  cbn [set_trending_velocity set_last _reference_velocity _trending_velocity].
  rewrite Hsome.
  rewrite <- !app_assoc. cbn [app].
  fold (current_position p). fold (delta_d p (deref h lp)). fold (velocity p (deref h lp) (now - lt)).
  set (h3 := h ++ [_; _; _]).
  set (w := pushed _ _).
  pose proof (compare_directions w ref h3) as Hcmp.
  destruct (deepcopy ref h3) as [r h4]. cbn zeta in Hcmp.
  destruct (SlidingWindow.value w (np_idiv r (np_linalg_norm r h4) h4)) as [v h5].
  destruct (deepcopy v h5) as [t h6]. cbn zeta in Hcmp.
  assert (Hpair : (np_dot r t (np_idiv t (np_linalg_norm t h6) h6), np_idiv t (np_linalg_norm t h6) h6) =
     (cosine_similarity (deref h3 ref) (trending h3 w),
       h3 ++ [unit_vector (deref h3 ref); trending h3 w; unit_vector (trending h3 w)])).
  { apply Hcmp.
    - subst h3. rewrite length_app. specialize (Href _ Hsome). lia.
    - subst h3 w. apply pushed_allocated; [exact Hque|]. rewrite length_app. cbn [length]. lia.
    - exact Hmeth. }
  injection Hpair as -> ->.
  subst h3. rewrite (deref_app_l h) by eauto. rewrite <- app_assoc. reflexivity.
Qed.

(** ** Well-formed detectors and the steps of a cycle *)

Lemma wf_reset self h : wf (reset self) h.
Proof.
  unfold wf, reset; cbn. repeat split; try discriminate; auto.
  intros [? [=]].
Qed.

Lemma wf_init h : wf __init__ h.
Proof.
  unfold wf, __init__; cbn. repeat split; try discriminate; auto.
  intros [? [=]].
Qed.

Lemma wf_extend self h ext : wf self h -> wf self (h ++ ext).
Proof.
  intros (Htime & Hlp & Href & Hque & Hsize & Hmeth).
  repeat split; auto.
  - intros l Hl. rewrite length_app. specialize (Hlp l Hl). lia.
  - intros l Hl. rewrite length_app. specialize (Href l Hl). lia.
  - eapply Forall_impl; [exact Hque|]. intros l Hl. cbn beta in *. rewrite length_app. lia.
Qed.

Lemma check_condition_step self p now h :
  wf self h ->
  exists r self' h', _check_condition self (Some p) now h = (r, self', h') /\ step self h p now r self' h'.
Proof.
  intros Hwf.
  destruct (_last_position self) as [lp|] eqn:Hp.
  2:{ do 3 eexists. split; [apply check_condition_first; exact Hp|]. constructor. exact Hp. }
  destruct (_last_time self) as [lt|] eqn:Ht.
  2:{ destruct Hwf as (Htime & _). destruct Htime as [? Hsome]; [rewrite Hp; eauto|]. congruence. }
  destruct (np.isclose (now - lt) 0 1e-4) eqn:Hclose.
  { do 3 eexists. split; [eapply check_condition_discard; eassumption|].
    rewrite deref_app_l by (destruct Hwf as (_ & Hlp & _); eauto).
    econstructor; eassumption. }
  destruct (_reference_velocity self) as [ref|] eqn:Href.
  - do 3 eexists. split; [eapply check_condition_compare; eassumption|].
    econstructor; eassumption.
  - do 3 eexists. split.
    2:{ eapply step_baseline; eassumption. }
    rewrite (check_condition_baseline self p now h lp lt) by assumption.
    cbn zeta. destruct (SlidingWindow.valid _); [|reflexivity].
    destruct (_ <=? _); reflexivity.
Qed.

Lemma step_extends self h p now r self' h' :
  step self h p now r self' h' -> exists ext, h' = h ++ ext.
Proof.
  destruct 1 as [| | ? ? ? ? ? ? h3 w ? ? | ? ? ? ? ? ? ? h3 w]; try (eexists; reflexivity).
  - subst h3. destruct (_ && _); rewrite <- ?app_assoc; eexists; reflexivity.
  - subst h3. rewrite <- app_assoc; eexists; reflexivity.
Qed.

Lemma step_wf self h p now r self' h' :
  wf self h -> step self h p now r self' h' -> wf self' h'.
Proof.
  intros Hwf Hstep. pose proof Hwf as (Htime & Hlp & Href & Hque & Hsize & Hmeth).
  destruct Hstep as [Hp | lp lt Hp Ht Hc | lp lt Hp Ht Hc Hnone h3 w self1 self2 | lp lt ref Hp Ht Hc Hsome h3 w].
  - repeat split; cbn; auto.
    + intros l [= <-]. rewrite length_app. cbn. lia.
    + intros l Hl. rewrite length_app. specialize (Href l Hl). lia.
    + eapply Forall_impl; [exact Hque|]. intros l Hl. cbn beta in *. rewrite length_app. lia.
  - apply wf_extend, Hwf.
  - assert (Hw : Forall (fun l => (l < length h3)%nat) (SlidingWindow._que w)).
    { subst h3 w. apply pushed_allocated; [exact Hque|]. rewrite length_app. cbn [length]. lia. }
    assert (Hlen : length h3 = (length h + 3)%nat) by (subst h3; rewrite length_app; reflexivity).
    assert (Hwf1 : wf self1 h3).
    { repeat split; cbn; auto.
      - intros l [= <-]. lia.
      - intros l Hl. specialize (Href l Hl). lia. }
    destruct (SlidingWindow.valid w); [|exact Hwf1].
    destruct (_ <=? _); cbn [andb negb].
    + destruct Hwf1 as (? & ? & ? & ? & ? & ?). repeat split; cbn; auto.
    + apply (wf_extend _ _ [trending h3 w]) in Hwf1.
      destruct Hwf1 as (? & ? & ? & ? & ? & ?). repeat split; cbn; auto.
      intros l [= <-]. rewrite length_app. cbn [length]. lia.
  - assert (Hw : Forall (fun l => (l < length h3)%nat) (SlidingWindow._que w)).
    { subst h3 w. apply pushed_allocated; [exact Hque|]. rewrite length_app. cbn [length]. lia. }
    assert (Hlen : length h3 = (length h + 3)%nat) by (subst h3; rewrite length_app; reflexivity).
    apply wf_extend. repeat split; cbn; auto.
    + intros l [= <-]. lia.
    + intros l Hl. specialize (Href l Hl). lia.
Qed.

Lemma step_methods self h p now r self' h' :
  step self h p now r self' h' ->
  _check_ground_method self' = _check_ground_method self
  /\ _query_ground_position_method self' = _query_ground_position_method self.
Proof.
  destruct 1 as [| | ? ? ? ? ? ? h3 w ? ? | ? ? ? ? ? ? ? h3 w]; cbn; auto.
  destruct (SlidingWindow.valid w); [destruct (_ <=? _)|]; cbn; auto.
Qed.

Lemma step_reference_kept self h p now r self' h' ref :
  step self h p now r self' h' ->
  _reference_velocity self = Some ref ->
  _reference_velocity self' = Some ref /\ _samples_skipped self' = _samples_skipped self.
Proof.
  destruct 1; intros Href; cbn; auto. congruence.
Qed.

Lemma step_reference_unset self h p now r self' h' :
  step self h p now r self' h' ->
  _reference_velocity self = None ->
  r = Ok false.
Proof. destruct 1; intros Href; auto. congruence. Qed.

Lemma step_reference_assigned self h p now r self' h' ref :
  wf self h ->
  step self h p now r self' h' ->
  _reference_velocity self = None ->
  _reference_velocity self' = Some ref ->
  SKIP_SAMPLES_COUNT < _samples_skipped self'
  /\ SlidingWindow.valid (_trending_velocity self') = true
  /\ (length h <= ref < length h')%nat
  /\ deref h' ref = trending h' (_trending_velocity self').
Proof.
  intros (_ & _ & _ & Hque & _) Hstep Hnone.
  destruct Hstep as [Hp | lp lt Hp Ht Hc | lp lt Hp Ht Hc _ h3 w self1 self2 | lp lt ref' Hp Ht Hc Hsome h3 w];
    cbn; try congruence.
  destruct (SlidingWindow.valid w) eqn:Hvalid; [|cbn; congruence].
  destruct (Z.leb_spec (_samples_skipped self + 1) SKIP_SAMPLES_COUNT); cbn; [congruence|].
  intros [= <-].
  assert (Hlen : length h3 = (length h + 3)%nat) by (subst h3; rewrite length_app; reflexivity).
  split; [assumption|]. split; [assumption|]. split; [rewrite length_app; cbn [length]; lia|].
  rewrite <- Hlen, deref_alloc. unfold trending.
  rewrite deref_fmap_app_l; [reflexivity|].
  subst h3 w. apply pushed_allocated; [exact Hque|]. rewrite length_app. cbn [length]. lia.
Qed.

Lemma step_warming k self h p now r self' h' :
  wf self h -> step self h p now r self' h' ->
  warming k self -> (k < 10)%nat -> warming (S k) self'.
Proof.
  intros (_ & _ & _ & _ & Hsize & _) Hstep (Hnone & Hzero & Hlen & Hskip) Hk.
  destruct Hstep as [Hp | lp lt Hp Ht Hc | lp lt Hp Ht Hc _ h3 w self1 self2 | lp lt ref' Hp Ht Hc Hsome h3 w];
    try congruence.
  - repeat split; cbn; auto; try lia; try discriminate.
  - repeat split; auto; try lia; try discriminate.
  - assert (Hk1 : (1 <= k)%nat) by (destruct k; [specialize (Hzero eq_refl); congruence | lia]).
    pose proof (length_pushed (_trending_velocity self) (length h + 2)) as Hpush. fold w in Hpush.
    assert (Hw1 : warming (S k) self1).
    { repeat split; auto; try discriminate.
      - cbn [self1 set_trending_velocity _trending_velocity]. lia.
      - cbn [self1 set_trending_velocity set_last _samples_skipped]. lia. }
    destruct (SlidingWindow.valid w) eqn:Hvalid; [|exact Hw1].
    unfold SlidingWindow.valid in Hvalid. apply Z.eqb_eq in Hvalid.
    assert (Hw5 : SlidingWindow._size w = 5) by (subst w; cbn; rewrite Hsize; reflexivity).
    destruct (Z.leb_spec (_samples_skipped self + 1) SKIP_SAMPLES_COUNT) as [Hle|Hgt].
    + repeat split; auto; try discriminate.
      * cbn [self2 self1 set_samples_skipped set_trending_velocity _trending_velocity]. lia.
      * cbn [self2 set_samples_skipped _samples_skipped]. lia.
    + unfold SKIP_SAMPLES_COUNT in Hgt. lia.
Qed.

Lemma step_cycle k t self h p now r self' h' :
  wf self h -> step self h p now r self' h' ->
  cycle k t self -> (1 <= k <= 10)%nat ->
  np.isclose (now - t) 0 1e-4 = false ->
  cycle (S k) now self'.
Proof.
  intros (_ & _ & _ & _ & Hsize & _) Hstep (Hpos & Htime & Hlen & Hskip & Href) Hk Hclose.
  destruct (decide (k <= 10)%nat) as [_|]; [|lia].
  destruct Hstep as [Hp | lp lt Hp Ht Hc | lp lt Hp Ht Hc _ h3 w self1 self2 | lp lt ref' Hp Ht Hc Hsome h3 w];
    try congruence.
  - rewrite Hp in Hpos. destruct Hpos as [? [=]].
  - pose proof (length_pushed_exact (_trending_velocity self) (length h + 2) Hsize ltac:(lia)) as Hpush.
    fold w in Hpush.
    unfold SlidingWindow.valid. 
    assert (Hw5 : SlidingWindow._size w = 5) by (subst w; cbn; rewrite Hsize; reflexivity).
    rewrite Hw5. unfold SKIP_SAMPLES_COUNT.
    destruct (Z.eqb_spec (Z.of_nat (length (SlidingWindow._que w))) 5) as [Hfull|Hpart].
    + destruct (Z.leb_spec (_samples_skipped self + 1) 5) as [Hle|Hgt].
      * repeat split; cbn [self2 self1 set_samples_skipped set_trending_velocity set_last
          _last_position _last_time _trending_velocity _samples_skipped _reference_velocity];
          eauto; try lia.
        destruct (decide (S k <= 10)%nat); [assumption | lia].
      * repeat split; cbn [self2 self1 set_reference_velocity set_samples_skipped set_trending_velocity set_last
          _last_position _last_time _trending_velocity _samples_skipped _reference_velocity];
          eauto; try lia.
        destruct (decide (S k <= 10)%nat); [lia | eauto].
    + repeat split; cbn [self1 set_samples_skipped set_trending_velocity set_last
          _last_position _last_time _trending_velocity _samples_skipped _reference_velocity];
          eauto; try lia.
      destruct (decide (S k <= 10)%nat); [assumption | lia].
Qed.

(** ** Calls of [detect()] and runs *)

Lemma detect_sample self s h :
  _check_ground_method self = bound_tf_2_method ->
  detect self (tick_of s) h = _check_condition self (Some s.1) s.2 h.
Proof. intros Hm. unfold detect. rewrite Hm. reflexivity. Qed.

Lemma detect_lookup_failure self k h :
  _check_ground_method self = bound_tf_2_method ->
  _tf_lookup_position (tf k) = None ->
  detect self k h = (Raise AttributeError, self, h).
Proof. intros Hm Hk. unfold detect, _tf_2_method. rewrite Hm, Hk. reflexivity. Qed.

(** A call of [detect()] either leaves the detector and the heap as they
    are, or goes through [_check_condition] with a position. *)
Lemma detect_cases self k h :
  wf self h ->
  exists r self' h',
    detect self k h = (r, self', h')
    /\ ((self' = self /\ h' = h) \/ exists p, step self h p (clock k) r self' h').
Proof.
  intros Hwf. unfold detect, _tf_2_method, _gazebo_link_states_method.
  destruct (_check_ground_method self).
  - destruct (_tf_lookup_position (tf k)) as [p|].
    + destruct (check_condition_step self p (clock k) h Hwf) as (r & self' & h' & Heq & Hstep).
      exists r, self', h'. eauto.
    + do 3 eexists. split; [reflexivity|]. auto.
  - do 3 eexists. split; [reflexivity|]. auto.
Qed.

Lemma detect_all_take n : forall ks self h,
  take n (detect_all self h ks).1.1 = (detect_all self h (take n ks)).1.1.
Proof.
  induction n as [|n IH]; intros ks self h.
  - destruct ks; reflexivity.
  - destruct ks as [|k ks]; [reflexivity|].
    cbn [take detect_all]. destruct (detect self k h) as [[r self'] h'].
    specialize (IH ks self' h').
    destruct (detect_all self' h' ks) as [[rs ?] ?].
    destruct (detect_all self' h' (take n ks)) as [[rs' ?] ?].
    cbn [fst take] in *. f_equal. exact IH.
Qed.

Lemma detect_all_warming samples : forall k self h,
  wf self h -> _check_ground_method self = bound_tf_2_method ->
  warming k self -> (k + length samples <= 11)%nat ->
  (detect_all self h (tick_of <$> samples)).1.1 = replicate (length samples) (Ok false).
Proof.
  induction samples as [|s samples IH]; intros k self h Hwf Hm Hwarm Hk; [reflexivity|].
  cbn [fmap list_fmap detect_all length replicate].
  rewrite detect_sample by exact Hm.
  destruct (check_condition_step self s.1 s.2 h Hwf) as (r & self' & h' & -> & Hstep).
  pose proof (step_reference_unset _ _ _ _ _ _ _ Hstep (proj1 Hwarm)) as ->.
  destruct (detect_all self' h' (tick_of <$> samples)) as [[rs self''] h''] eqn:Hrun.
  cbn [fst]. f_equal.
  destruct samples as [|s' samples']; [cbn in Hrun; injection Hrun as <- _ _; reflexivity|].
  change rs with (rs, self'', h'').1.1. rewrite <- Hrun.
  apply (IH (S k)).
  - eapply step_wf; eassumption.
  - rewrite (proj1 (step_methods _ _ _ _ _ _ _ Hstep)). exact Hm.
  - eapply step_warming; [eassumption..|]. cbn [length] in Hk. lia.
  - cbn [length] in *. lia.
Qed.

Lemma warming_reset self : warming 0 (reset self).
Proof. repeat split; cbn; auto; lia. Qed.

(** What a run of calls keeps: well-formedness, the arrays that exist, and the
    reference velocity once it is set. *)
Lemma detect_all_invariants ks : forall self h,
  wf self h ->
  exists rs self' h',
    detect_all self h ks = (rs, self', h')
    /\ wf self' h'
    /\ (exists ext, h' = h ++ ext)
    /\ (forall ref, _reference_velocity self = Some ref ->
          _reference_velocity self' = Some ref /\ _samples_skipped self' = _samples_skipped self)
    /\ (forall ref, _reference_velocity self = None -> _reference_velocity self' = Some ref ->
          SKIP_SAMPLES_COUNT < _samples_skipped self' /\ (length h <= ref)%nat).
Proof.
  induction ks as [|k ks IH]; intros self h Hwf.
  - exists [], self, h. split; [reflexivity|]. split; [exact Hwf|].
    split; [exists []; rewrite app_nil_r; reflexivity|]. split; [auto|]. congruence.
  - destruct (detect_cases self k h Hwf) as (r & self1 & h1 & Hdet & Hcase).
    assert (Hwf1 : wf self1 h1).
    { destruct Hcase as [[-> ->] | [p Hstep]]; [exact Hwf | eapply step_wf; eassumption]. }
    assert (Hext1 : exists ext, h1 = h ++ ext).
    { destruct Hcase as [[-> ->] | [p Hstep]];
        [exists []; rewrite app_nil_r; reflexivity | eapply step_extends; eassumption]. }
    destruct (IH self1 h1 Hwf1) as (rs & self' & h' & Hrun & Hwf' & Hext & Hkept & Hset).
    exists (r :: rs), self', h'. cbn [detect_all]. rewrite Hdet, Hrun.
    split; [reflexivity|]. split; [exact Hwf'|].
    destruct Hext1 as [ext1 ->]. destruct Hext as [ext ->].
    split; [exists (ext1 ++ ext); rewrite app_assoc; reflexivity|].
    split.
    + intros ref Href.
      assert (H1 : _reference_velocity self1 = Some ref /\ _samples_skipped self1 = _samples_skipped self).
      { destruct Hcase as [[-> _] | [p Hstep]]; [auto | eapply step_reference_kept; eassumption]. }
      destruct H1 as [H1 H1']. destruct (Hkept ref H1) as [H2 H2']. split; congruence.
    + intros ref Hnone Hsome.
      destruct (_reference_velocity self1) as [ref1|] eqn:Href1.
      * destruct (Hkept ref1 eq_refl) as [H2 H2'].
        assert (ref1 = ref) as -> by congruence.
        destruct Hcase as [[-> _] | [p Hstep]]; [congruence|].
        destruct (step_reference_assigned _ _ _ _ _ _ _ _ Hwf Hstep Hnone Href1) as (Hskip & _ & Hfresh & _).
        split; [rewrite H2'; exact Hskip | lia].
      * destruct (Hset ref eq_refl Hsome) as [Hskip Hfresh].
        split; [exact Hskip|]. rewrite length_app in Hfresh. lia.
Qed.

Lemma detect_all_cycle samples : forall k t self h,
  wf self h -> _check_ground_method self = bound_tf_2_method ->
  cycle k t self -> (1 <= k)%nat -> (k + length samples <= 11)%nat ->
  spaced_from t samples = true ->
  exists t', cycle (k + length samples) t' (detect_all self h (tick_of <$> samples)).1.2.
Proof.
  induction samples as [|s samples IH]; intros k t self h Hwf Hm Hcycle Hk1 Hk Hsp.
  - exists t. rewrite Nat.add_0_r. exact Hcycle.
  - cbn [fmap list_fmap detect_all length]. cbn [spaced_from] in Hsp.
    apply andb_true_iff in Hsp as [Hclose Hsp]. apply negb_true_iff in Hclose.
    rewrite detect_sample by exact Hm.
    destruct (check_condition_step self s.1 s.2 h Hwf) as (r & self' & h' & -> & Hstep).
    cbn [length] in Hk.
    destruct (IH (S k) s.2 self' h') as [t' Ht']; try lia; try assumption.
    + eapply step_wf; eassumption.
    + rewrite (proj1 (step_methods _ _ _ _ _ _ _ Hstep)). exact Hm.
    + eapply step_cycle; [eassumption..| lia | exact Hclose].
    + exists t'. destruct (detect_all self' h' (tick_of <$> samples)) as [[rs self''] h''].
      cbn [fst snd] in *. replace (k + S (length samples))%nat with (S k + length samples)%nat by lia.
      exact Ht'.
Qed.

Lemma first_sample_cycle self h s :
  _check_ground_method self = bound_tf_2_method ->
  cycle 1 s.2 (detect (reset self) (tick_of s) h).1.2.
Proof.
  intros Hm. rewrite detect_sample by exact Hm.
  rewrite check_condition_first by reflexivity.
  repeat split; cbn; eauto.
Qed.

(** From [reset()], eleven spaced samples: the reference velocity is unset
    after ten of them and set by the eleventh. *)
Lemma reference_set_by_eleventh self h samples :
  _check_ground_method self = bound_tf_2_method ->
  spaced samples = true -> length samples = 11%nat ->
  _reference_velocity (detect_all (reset self) h (tick_of <$> take 10 samples)).1.2 = None
  /\ is_Some (_reference_velocity (detect_all (reset self) h (tick_of <$> samples)).1.2).
Proof.
  intros Hm Hsp Hlen.
  destruct samples as [|s samples]; [discriminate|]. cbn [spaced] in Hsp. cbn [length] in Hlen.
  pose proof (first_sample_cycle self h s Hm) as Hfirst.
  assert (Hm' : _check_ground_method (detect (reset self) (tick_of s) h).1.2 = bound_tf_2_method).
  { rewrite detect_sample by exact Hm. rewrite check_condition_first by reflexivity. exact Hm. }
  assert (Hwf' : wf (detect (reset self) (tick_of s) h).1.2 (detect (reset self) (tick_of s) h).2).
  { rewrite detect_sample by exact Hm.
    destruct (check_condition_step (reset self) s.1 s.2 h (wf_reset self h)) as (r & self' & h' & -> & Hstep).
    eapply step_wf; [apply wf_reset | exact Hstep]. }
  change (take 10 (s :: samples)) with (s :: take 9 samples).
  cbn [fmap list_fmap detect_all].
  destruct (detect (reset self) (tick_of s) h) as [[r1 self1] h1]. cbn [fst snd] in *.
  split.
  - assert (Hsp9 : spaced_from s.2 (take 9 samples) = true).
    { clear -Hsp. revert Hsp. generalize s.2. generalize 9%nat.
      induction samples as [|a samples IH]; intros n t; [destruct n; auto|].
      destruct n; [reflexivity|]. cbn [take spaced_from]. rewrite !andb_true_iff. intuition. }
    destruct (detect_all_cycle (take 9 samples) 1 s.2 self1 h1 Hwf' Hm' Hfirst) as [t' Hc];
      try assumption; try lia; try (rewrite length_take; lia).
    rewrite length_take in Hc. replace (1 + 9 `min` length samples)%nat with 10%nat in Hc by lia.
    destruct (detect_all self1 h1 (tick_of <$> take 9 samples)) as [[rs self'] h']. cbn [fst snd] in *.
    destruct Hc as (_ & _ & _ & _ & Hc). exact Hc.
  - destruct (detect_all_cycle samples 1 s.2 self1 h1 Hwf' Hm' Hfirst) as [t' Hc];
      try assumption; try lia.
    replace (1 + length samples)%nat with 11%nat in Hc by lia.
    destruct (detect_all self1 h1 (tick_of <$> samples)) as [[rs self'] h']. cbn [fst snd] in *.
    destruct Hc as (_ & _ & _ & _ & Hc). exact Hc.
Qed.

(** ** binary64 and the mean *)

Lemma mul_nan_r x : (x * nan)%float = nan.
Proof.
  apply Prim2SF_inj. rewrite FloatAxioms.mul_spec.
  change (Prim2SF nan) with S754_nan.
  destruct (Prim2SF x); reflexivity.
Qed.

Lemma eqb_zero c : (c =? 0)%float = true -> c = 0%float \/ c = (-0)%float.
Proof.
  rewrite FloatAxioms.eqb_spec. change (Prim2SF 0) with (S754_zero false).
  destruct (Prim2SF c) as [s| s | |s m e] eqn:Hc; cbn; try discriminate.
  - intros _. rewrite <- (SF2Prim_Prim2SF c), Hc. destruct s; [right|left]; reflexivity.
  - destruct s; discriminate.
  - destruct s; discriminate.
Qed.

Lemma unit_vector_zero a : is_zero_vector a = true -> unit_vector a = np.array nan nan nan.
Proof.
  destruct a as [a0 a1 a2]. unfold is_zero_vector. cbn [np.item0 np.item1 np.item2].
  rewrite !andb_true_iff. intros [[H0 H1] H2].
  destruct (eqb_zero _ H0) as [-> | ->], (eqb_zero _ H1) as [-> | ->], (eqb_zero _ H2) as [-> | ->];
    reflexivity.
Qed.

Lemma dot_nan_r a : np.dot a (np.array nan nan nan) = nan.
Proof.
  unfold np.dot. cbn [np.item0 np.item1 np.item2]. rewrite !mul_nan_r. reflexivity.
Qed.

Lemma cosine_similarity_zero a t :
  is_zero_vector t = true -> (cosine_similarity a t <? DIRECTION_TOLERANCE)%float = false.
Proof.
  intros Ht. unfold cosine_similarity. rewrite (unit_vector_zero t Ht), dot_nan_r. reflexivity.
Qed.





(** ** The push-based strategy *)

(** Once the latch is set, a link-states message is ignored. *)
Lemma handle_link_states_latched self data now h :
  _ground_detected self = true ->
  _handle_link_states self data now h = (Ok tt, self, h).
Proof. intros Hd. unfold _handle_link_states. rewrite Hd. reflexivity. Qed.

(** With the latch set, whatever messages come, the detector stays as it is
    and [_gazebo_link_states_method] answers true. *)
Lemma gazebo_link_states_method_latched msgs : forall self h,
  _ground_detected self = true ->
  handle_all self h msgs = (self, h)
  /\ _gazebo_link_states_method self h = (Ok true, self, h).
Proof.
  induction msgs as [|[data now] msgs IH]; intros self h Hd.
  - unfold _gazebo_link_states_method. rewrite Hd. split; reflexivity.
  - cbn [handle_all]. rewrite handle_link_states_latched by exact Hd. apply IH, Hd.
Qed.

(** The detector and the heap a run ends with are well-formed. *)
Lemma detect_all_wf ks self h :
  wf self h -> wf (detect_all self h ks).1.2 (detect_all self h ks).2.
Proof.
  intros Hwf.
  destruct (detect_all_invariants ks self h Hwf) as (rs & self' & h' & -> & Hwf' & _).
  exact Hwf'.
Qed.

(** * The claims *)

(** C1. In the pull-based strategy a failed lookup is turned into [None] by
    [_tf_lookup_position], and [_check_condition] then reads [None.x]: on a
    new instance, for each of the three lookup exceptions, [detect()] raises
    [AttributeError]. Neither the detector nor any array is changed by the
    call. *)
Theorem detect_raises_on_failed_lookup (now : float) :
  detect __init__ {| tf := LookupException; clock := now |} []
    = (Raise AttributeError, __init__, [])
  /\ detect __init__ {| tf := ConnectivityException; clock := now |} []
       = (Raise AttributeError, __init__, [])
  /\ detect __init__ {| tf := ExtrapolationException; clock := now |} []
       = (Raise AttributeError, __init__, []).
Proof. repeat split. Qed.

(** C2. The pull-based strategy, the one [__init__] selects, returns what the
    comparison of this call says and keeps no latch: on the run
    [sideways_then_down] the 14th call of [detect()] returns true and the 18th
    returns false, with no [reset()] in between. *)
Theorem pull_strategy_does_not_latch :
  let results := (detect_all __init__ [] sideways_then_down).1.1 in
  results !! 13%nat = Some (Ok true) /\ results !! 17%nat = Some (Ok false).
Proof. vm_compute. split; reflexivity. Qed.

(** C3. From [reset()], in the pull-based strategy, whatever the positions
    and the times of the samples (strictly increasing times are one case):
    each of the first [ROLLING_AVERAGE_WINDOW = 5] calls of [detect()] returns
    false, and so does each of the next [SKIP_SAMPLES_COUNT = 5] calls. *)
Theorem detect_false_while_filling_and_skipping self h (samples : list (Vector3 * float)) :
  _check_ground_method self = bound_tf_2_method ->
  let N := Z.to_nat ROLLING_AVERAGE_WINDOW in
  let skip := Z.to_nat SKIP_SAMPLES_COUNT in
  let results := (detect_all (reset self) h (tick_of <$> samples)).1.1 in
  take N results = replicate (min N (length samples)) (Ok false)
  /\ take skip (drop N results) = replicate (min skip (length samples - N)) (Ok false).
Proof.
  intros Hm N skip results.
  assert (HN : N = 5%nat) by reflexivity. assert (Hskip : skip = 5%nat) by reflexivity.
  clearbody N skip. subst N skip.
  assert (H10 : take (5 + 5) results = replicate (min (5 + 5) (length samples)) (Ok false)).
  { subst results. rewrite detect_all_take, <- fmap_take.
    rewrite (detect_all_warming _ 0).
    - rewrite length_take. reflexivity.
    - apply wf_reset.
    - exact Hm.
    - apply warming_reset.
    - rewrite length_take. lia. }
  split.
  - rewrite <- (Nat.min_l 5 (5 + 5)) at 1 by lia.
    rewrite <- take_take, H10, take_replicate. f_equal. lia.
  - rewrite take_drop_commute, H10, drop_replicate. f_equal. lia.
Qed.

Lemma detect_false_while_filling_and_skipping_witness :
  _check_ground_method __init__ = bound_tf_2_method
  /\ (let N := Z.to_nat ROLLING_AVERAGE_WINDOW in
      let skip := Z.to_nat SKIP_SAMPLES_COUNT in
      let results := (detect_all (reset __init__) [] (tick_of <$> steady_samples)).1.1 in
      take N results = replicate (min N (length steady_samples)) (Ok false)
      /\ take skip (drop N results)
           = replicate (min skip (length steady_samples - N)) (Ok false)).
Proof.
  split; [reflexivity|].
  apply (detect_false_while_filling_and_skipping __init__ [] steady_samples). reflexivity.
Defined.

(** C4, as the code has it. Once the reference velocity is set, when the
    vector the window summarizes to after an accepted sample is a zero vector,
    the comparison is defined and raises nothing: the division by the zero
    norm gives NaN components, the similarity is NaN, [NaN < 0.95] is false,
    and the call returns false. *)
Theorem zero_trending_vector_is_not_detected self p now h lp lt ref :
  wf self h ->
  _last_position self = Some lp -> _last_time self = Some lt ->
  np.isclose (now - lt) 0 1e-4 = false ->
  _reference_velocity self = Some ref ->
  let '(r, self', h') := _check_condition self (Some p) now h in
  is_zero_vector (trending h' (_trending_velocity self')) = true ->
  r = Ok false.
Proof.
  intros Hwf Hp Ht Hclose Href.
  rewrite (check_condition_compare self p now h lp lt ref) by assumption. cbn zeta.
  destruct Hwf as (_ & _ & _ & Hque & _).
  cbn [set_trending_velocity set_last _trending_velocity].
  rewrite trending_final.
  - intros Hzero. rewrite cosine_similarity_zero by exact Hzero. reflexivity.
  - apply pushed_allocated; [exact Hque|]. rewrite length_app. cbn [length]. lia.
Qed.

Lemma zero_trending_vector_is_not_detected_witness :
  let self := (detect_all __init__ [] descent_then_rest).1.2 in
  let h := (detect_all __init__ [] descent_then_rest).2 in
  let p := vector3 0 0 (-11) in
  let now := 16%float in
  wf self h
  /\ _last_position self = Some 56%nat /\ _last_time self = Some 15%float
  /\ np.isclose (now - 15) 0 1e-4 = false
  /\ _reference_velocity self = Some 31%nat
  /\ (let '(r, self', h') := _check_condition self (Some p) now h in
      is_zero_vector (trending h' (_trending_velocity self')) = true -> r = Ok false).
Proof.
  intros self h p now.
  assert (Hwf : wf self h) by apply detect_all_wf, wf_init.
  assert (Hp : _last_position self = Some 56%nat) by (vm_compute; reflexivity).
  assert (Ht : _last_time self = Some 15%float) by (vm_compute; reflexivity).
  assert (Hclose : np.isclose (now - 15) 0 1e-4 = false) by (vm_compute; reflexivity).
  assert (Href : _reference_velocity self = Some 31%nat) by (vm_compute; reflexivity).
  clearbody self h p now.
  repeat (split; [assumption|]).
  exact (zero_trending_vector_is_not_detected self p now h 56%nat 15 31%nat Hwf Hp Ht Hclose Href).
Defined.

(** C4, as the claim has it, fails: after the descent the tip rests; on the
    17th call the reference velocity is set, the window holds five zero
    velocities, and [detect()] returns false, not true. *)
Lemma motionless_arm_is_not_detected :
  let '(_, self, h) := detect_all __init__ [] descent_then_rest in
  let '(r, self', h') := detect self (rest_tick 16) h in
  is_Some (_reference_velocity self)
  /\ is_zero_vector (trending h' (_trending_velocity self')) = true
  /\ r = Ok false
  /\ r <> Ok true.
Proof. vm_compute. repeat split; eauto. discriminate. Qed.

(** On the steady descent every velocity is the reference velocity and no
    call of [detect()] returns true: the similarity of the 12th call is 1. *)
Lemma steady_descent_is_not_detected :
  (detect_all __init__ [] steady_descent).1.1 = replicate 12 (Ok false).
Proof. vm_compute. reflexivity. Qed.




(** C7. A sample whose time is within the tolerance of the time of the last
    accepted sample is dropped: the call returns false and the detector is the
    same in every attribute (last position and time, window, skip counter,
    reference velocity, latch); the arrays that existed are the same, the
    heap only has the temporaries of the call appended. *)
Theorem near_zero_delta_t_is_discarded self k p h lp lt :
  _check_ground_method self = bound_tf_2_method ->
  tf k = Transform p ->
  _last_position self = Some lp -> _last_time self = Some lt ->
  np.isclose (clock k - lt) 0 1e-4 = true ->
  exists temporaries,
    _check_condition self (Some p) (clock k) h = (Ok false, self, h ++ temporaries)
    /\ detect self k h = (Ok false, self, h ++ temporaries).
Proof.
  intros Hm Hk Hp Ht Hclose.
  eexists. unfold detect, _tf_2_method. rewrite Hm, Hk. cbn [_tf_lookup_position].
  split; eapply check_condition_discard; eassumption.
Qed.

Lemma near_zero_delta_t_is_discarded_witness :
  let self := (detect_all __init__ [] [sample 0 0 0 0]).1.2 in
  let h := (detect_all __init__ [] [sample 0 0 0 0]).2 in
  let p := vector3 0 0 (-1) in
  let k := {| tf := Transform p; clock := 0.00005 |} in
  _check_ground_method self = bound_tf_2_method
  /\ tf k = Transform p
  /\ _last_position self = Some 0%nat /\ _last_time self = Some 0%float
  /\ np.isclose (clock k - 0) 0 1e-4 = true
  /\ exists temporaries,
       _check_condition self (Some p) (clock k) h = (Ok false, self, h ++ temporaries)
       /\ detect self k h = (Ok false, self, h ++ temporaries).
Proof.
  intros self h p k.
  assert (Hm : _check_ground_method self = bound_tf_2_method) by (vm_compute; reflexivity).
  assert (Hk : tf k = Transform p) by reflexivity.
  assert (Hp : _last_position self = Some 0%nat) by (vm_compute; reflexivity).
  assert (Ht : _last_time self = Some 0%float) by (vm_compute; reflexivity).
  assert (Hclose : np.isclose (clock k - 0) 0 1e-4 = true) by (vm_compute; reflexivity).
  clearbody self h p k.
  repeat (split; [assumption|]).
  exact (near_zero_delta_t_is_discarded self k p h 0%nat 0 Hm Hk Hp Ht Hclose).
Defined.

(** C8. On a well-formed detector, over any run of calls of [detect()]:
    a reference velocity that is set stays the same array with the same
    contents; the arrays of the window, and every array that existed before
    the run, keep their contents (the normalization divides copies in place,
    at new addresses); when the run sets the reference velocity, the skip
    counter is beyond [SKIP_SAMPLES_COUNT] and the array is a new one; and
    [reset()] unsets it. From [reset()], the reference velocity is unset after
    ten accepted samples and set by the eleventh. *)
Theorem reference_velocity_assigned_once self h ks :
  wf self h ->
  (let '(_, self', h') := detect_all self h ks in
   (forall ref, _reference_velocity self = Some ref ->
      _reference_velocity self' = Some ref /\ deref h' ref = deref h ref)
   /\ Forall (fun l => deref h' l = deref h l) (SlidingWindow._que (_trending_velocity self))
   /\ (forall l, (l < length h)%nat -> deref h' l = deref h l)
   /\ (forall ref, _reference_velocity self = None -> _reference_velocity self' = Some ref ->
         SKIP_SAMPLES_COUNT < _samples_skipped self' /\ (length h <= ref)%nat)
   /\ _reference_velocity (reset self') = None)
  /\ (forall samples,
        _check_ground_method self = bound_tf_2_method ->
        spaced samples = true -> length samples = 11%nat ->
        _reference_velocity (detect_all (reset self) h (tick_of <$> take 10 samples)).1.2 = None
        /\ is_Some (_reference_velocity (detect_all (reset self) h (tick_of <$> samples)).1.2)).
Proof.
  intros Hwf. split.
  - destruct (detect_all_invariants ks self h Hwf)
      as (rs & self' & h' & -> & Hwf' & [ext ->] & Hkept & Hset).
    pose proof Hwf as (_ & _ & Href & Hque & _).
    split; [|split; [|split; [|split]]].
    + intros ref Hsome. split; [apply (Hkept ref Hsome)|]. apply deref_app_l, Href, Hsome.
    + eapply Forall_impl; [exact Hque|]. intros l Hl. apply deref_app_l, Hl.
    + intros l Hl. apply deref_app_l, Hl.
    + exact Hset.
    + reflexivity.
  - intros samples Hm Hsp Hlen. apply reference_set_by_eleventh; assumption.
Qed.

Lemma reference_velocity_assigned_once_witness :
  let self := (detect_all __init__ [] steady_descent).1.2 in
  let h := (detect_all __init__ [] steady_descent).2 in
  let ks := [sample 0 0 (-12) 12; sample 1 0 (-12) 13] in
  wf self h
  /\ (let '(_, self', h') := detect_all self h ks in
      (forall ref, _reference_velocity self = Some ref ->
         _reference_velocity self' = Some ref /\ deref h' ref = deref h ref)
      /\ Forall (fun l => deref h' l = deref h l) (SlidingWindow._que (_trending_velocity self))
      /\ (forall l, (l < length h)%nat -> deref h' l = deref h l)
      /\ (forall ref, _reference_velocity self = None -> _reference_velocity self' = Some ref ->
            SKIP_SAMPLES_COUNT < _samples_skipped self' /\ (length h <= ref)%nat)
      /\ _reference_velocity (reset self') = None).
Proof.
  intros self h ks.
  assert (Hwf : wf self h) by apply detect_all_wf, wf_init.
  clearbody self h ks.
  split; [exact Hwf|].
  exact (proj1 (reference_velocity_assigned_once self h ks Hwf)).
Defined.



(** C10. With the lambda the pull-based strategy gets in [__init__],
    [ground_position] before any position was recorded reads [None[0]] and
    raises [TypeError]; no point is returned. *)
Theorem ground_position_unset_fails getitem self t h :
  _query_ground_position_method self = lambda_last_position ->
  _last_position self = None ->
  ground_position getitem self t h = Raise TypeError.
Proof. intros Hq Hp. unfold ground_position. rewrite Hq, Hp. reflexivity. Qed.

Lemma ground_position_unset_fails_witness :
  _query_ground_position_method (reset __init__) = lambda_last_position
  /\ _last_position (reset __init__) = None
  /\ ground_position (fun _ _ => Raise TypeError) (reset __init__) LookupException []
     = Raise TypeError.
Proof.
  split; [reflexivity|]. split; [reflexivity|].
  apply (ground_position_unset_fails (fun _ _ => Raise TypeError) (reset __init__)
           LookupException []); reflexivity.
Defined.

(** * Further properties *)

Lemma fmap_removelast {A B} (f : A -> B) (l : list A) :
  f <$> removelast l = removelast (f <$> l).
Proof.
  induction l as [|a l' _] using rev_ind; [reflexivity|].
  rewrite fmap_app. cbn [fmap list_fmap]. rewrite !removelast_last. reflexivity.
Qed.

(** The window of values after an append is the window of the values after
    the append of the address. *)
Lemma observe_pushed (w : window) (val : loc) (h h' : heap) (v : np.ndarray) :
  1 <= SlidingWindow._size w ->
  deref h' val = v ->
  deref h' <$> SlidingWindow._que w = deref h <$> SlidingWindow._que w ->
  SlidingWindow.append
    {| SlidingWindow._que := deref h <$> SlidingWindow._que w;
       SlidingWindow._size := SlidingWindow._size w;
       SlidingWindow._method := np.mean_axis0 |} v
  = Ok {| SlidingWindow._que := deref h' <$> SlidingWindow._que (pushed w val);
          SlidingWindow._size := SlidingWindow._size (pushed w val);
          SlidingWindow._method := np.mean_axis0 |}.
Proof.
  intros HN Hval Hque. unfold SlidingWindow.append. cbn [SlidingWindow._que SlidingWindow._size SlidingWindow._method pushed].
  rewrite length_fmap.
  destruct (Z.geb_spec (Z.of_nat (length (SlidingWindow._que w))) (SlidingWindow._size w)).
  - rewrite pop_nonempty by (rewrite length_fmap; lia).
    cbn [fmap list_fmap SlidingWindow.appendleft]. rewrite Hval.
    rewrite (fmap_removelast (deref h')), Hque. reflexivity.
  - cbn [fmap list_fmap SlidingWindow.appendleft]. rewrite Hval, Hque. reflexivity.
Qed.

Lemma deref_Some (h : heap) (l : loc) : deref h <$> Some l = Some (deref h l).
Proof. reflexivity. Qed.

Lemma deref_option_app_l (h ext : heap) (o : option loc) :
  (forall l, o = Some l -> (l < length h)%nat) -> deref (h ++ ext) <$> o = deref h <$> o.
Proof.
  intros Ho. destruct o as [l|]; [|reflexivity]. cbn. rewrite deref_app_l by auto. reflexivity.
Qed.

Lemma deref_app_cons (h : heap) v ext : deref (h ++ v :: ext) (length h) = v.
Proof.
  change (v :: ext) with ([v] ++ ext). rewrite app_assoc.
  rewrite deref_app_l by (rewrite length_app; cbn [length]; lia). apply deref_alloc.
Qed.

(** On a well-formed detector the arrays that are appended to the heap do not
    change what is observed. *)
Lemma observe_extend self (h ext : heap) : wf self h -> observe self (h ++ ext) = observe self h.
Proof.
  intros (_ & Hlp & Href & Hque & _). unfold observe.
  rewrite (deref_option_app_l h ext (_last_position self)) by exact Hlp.
  rewrite (deref_option_app_l h ext (_reference_velocity self)) by exact Href.
  rewrite deref_fmap_app_l by exact Hque. reflexivity.
Qed.

Lemma step_on_values self h p now r self' h' :
  wf self h -> step self h p now r self' h' ->
  check_values (observe self h) p now = (r, observe self' h').
Proof.
  intros Hwf Hstep. pose proof Hwf as (Htime & Hlp & Href & Hque & Hsize & Hmeth).
  destruct Hstep as [Hp | lp lt Hp Ht Hc | lp lt Hp Ht Hc Hnone h3 w self1 self2 | lp lt ref Hp Ht Hc Hsome h3 w].
  - unfold check_values, observe. cbn [last_position_value]. rewrite Hp.
    cbn [set_last last_time_value ground_detected_value samples_skipped_value trending_velocity_values
         reference_velocity_value _last_position _last_time _ground_detected _samples_skipped
         _trending_velocity _reference_velocity].
    rewrite deref_Some, deref_alloc, deref_fmap_app_l by exact Hque.
    rewrite (deref_option_app_l h _ (_reference_velocity self)) by exact Href.
    reflexivity.
  - rewrite (observe_extend self h _ Hwf).
    unfold check_values, observe. cbn [last_position_value last_time_value]. rewrite Hp, Ht.
    rewrite deref_Some. cbv zeta. rewrite Hc. reflexivity.
  - assert (Hlen3 : length h3 = (length h + 3)%nat) by (subst h3; rewrite length_app; reflexivity).
    assert (Hw3 : Forall (fun l => (l < length h3)%nat) (SlidingWindow._que w)).
    { subst h3 w. apply pushed_allocated; [exact Hque|]. rewrite length_app. cbn [length]. lia. }
    assert (Hvel : forall ext, deref (h3 ++ ext) (length h + 2)%nat = velocity p (deref h lp) (now - lt)).
    { intros ext. rewrite deref_app_l by lia. subst h3.
      change [current_position p; delta_d p (deref h lp); velocity p (deref h lp) (now - lt)]
        with ([current_position p; delta_d p (deref h lp)] ++ [velocity p (deref h lp) (now - lt)]).
      rewrite app_assoc.
      replace (length h + 2)%nat with (length (h ++ [current_position p; delta_d p (deref h lp)]))
        by (rewrite length_app; reflexivity).
      apply deref_alloc. }
    assert (Hold : forall ext, deref (h3 ++ ext) <$> SlidingWindow._que (_trending_velocity self)
                     = deref h <$> SlidingWindow._que (_trending_velocity self)).
    { intros ext. subst h3. rewrite <- app_assoc. apply deref_fmap_app_l, Hque. }
    assert (Hcur : forall ext, deref (h3 ++ ext) (length h) = current_position p).
    { intros ext. subst h3. rewrite <- app_assoc. apply deref_app_cons. }
    assert (HN : 1 <= SlidingWindow._size (_trending_velocity self))
      by (rewrite Hsize; unfold ROLLING_AVERAGE_WINDOW; lia).
    unfold check_values.
    cbn [observe last_position_value last_time_value trending_velocity_values
         reference_velocity_value samples_skipped_value ground_detected_value].
    rewrite Hp, Ht, Hnone, !deref_Some. cbv zeta. rewrite Hc.
    assert (Hvalid_values : forall hf : heap,
              SlidingWindow.valid
                {| SlidingWindow._que := deref hf <$> SlidingWindow._que w;
                   SlidingWindow._size := SlidingWindow._size w;
                   SlidingWindow._method := np.mean_axis0 |} = SlidingWindow.valid w).
    { intros hf. unfold SlidingWindow.valid. cbn [SlidingWindow._que SlidingWindow._size].
      rewrite length_fmap. reflexivity. }
    pose proof (Hvel []) as Hvel0. pose proof (Hold []) as Hold0. pose proof (Hcur []) as Hcur0.
    rewrite app_nil_r in Hvel0, Hold0, Hcur0.
    destruct (SlidingWindow.valid w) eqn:Hvalid;
      [destruct (Z.leb_spec (_samples_skipped self + 1) SKIP_SAMPLES_COUNT) as [Hle|Hgt]|];
      cbn [andb negb].
    + rewrite (observe_pushed _ (length h + 2)%nat h h3 _ HN Hvel0 Hold0). fold w.
      cbv beta iota. rewrite Hvalid_values.
      unfold observe. subst self2 self1.
      cbn [set_samples_skipped set_trending_velocity set_last _last_position _last_time
           _ground_detected _samples_skipped _trending_velocity _reference_velocity].
      rewrite Hnone, deref_Some, Hcur0. reflexivity.
    + rewrite (observe_pushed _ (length h + 2)%nat h (h3 ++ [trending h3 w]) _ HN (Hvel _) (Hold _)).
      fold w. cbv beta iota. rewrite Hvalid_values.
      unfold observe. subst self2 self1.
      cbn [set_reference_velocity set_samples_skipped set_trending_velocity set_last
           _last_position _last_time
           _ground_detected _samples_skipped _trending_velocity _reference_velocity].
      rewrite !deref_Some, Hcur. unfold SlidingWindow.value. cbn [SlidingWindow._method SlidingWindow._que].
      rewrite <- Hlen3, deref_alloc.
      fold (trending (h3 ++ [trending h3 w]) w). rewrite trending_final by exact Hw3. reflexivity.
    + rewrite (observe_pushed _ (length h + 2)%nat h h3 _ HN Hvel0 Hold0). fold w.
      cbv beta iota. rewrite Hvalid_values.
      unfold observe. subst self1.
      cbn [set_samples_skipped set_trending_velocity set_last _last_position _last_time
           _ground_detected _samples_skipped _trending_velocity _reference_velocity].
      rewrite Hnone, deref_Some, Hcur0. reflexivity.
  - assert (Hlen3 : length h3 = (length h + 3)%nat) by (subst h3; rewrite length_app; reflexivity).
    assert (Hw3 : Forall (fun l => (l < length h3)%nat) (SlidingWindow._que w)).
    { subst h3 w. apply pushed_allocated; [exact Hque|]. rewrite length_app. cbn [length]. lia. }
    set (ext := [unit_vector (deref h ref); trending h3 w; unit_vector (trending h3 w)]).
    assert (Hvel : deref (h3 ++ ext) (length h + 2)%nat = velocity p (deref h lp) (now - lt)).
    { rewrite deref_app_l by lia. subst h3.
      change [current_position p; delta_d p (deref h lp); velocity p (deref h lp) (now - lt)]
        with ([current_position p; delta_d p (deref h lp)] ++ [velocity p (deref h lp) (now - lt)]).
      rewrite app_assoc.
      replace (length h + 2)%nat with (length (h ++ [current_position p; delta_d p (deref h lp)]))
        by (rewrite length_app; reflexivity).
      apply deref_alloc. }
    assert (Hold : deref (h3 ++ ext) <$> SlidingWindow._que (_trending_velocity self)
                   = deref h <$> SlidingWindow._que (_trending_velocity self)).
    { subst h3. rewrite <- app_assoc. apply deref_fmap_app_l, Hque. }
    assert (Hcur : deref (h3 ++ ext) (length h) = current_position p).
    { subst h3. rewrite <- app_assoc. apply deref_app_cons. }
    assert (Hr : deref (h3 ++ ext) ref = deref h ref).
    { subst h3. rewrite <- app_assoc. apply deref_app_l. eauto. }
    assert (HN : 1 <= SlidingWindow._size (_trending_velocity self))
      by (rewrite Hsize; unfold ROLLING_AVERAGE_WINDOW; lia).
    unfold check_values.
    cbn [observe last_position_value last_time_value trending_velocity_values
         reference_velocity_value samples_skipped_value ground_detected_value].
    rewrite Hp, Ht, Hsome, !deref_Some. cbv zeta. rewrite Hc.
    rewrite (observe_pushed _ (length h + 2)%nat h (h3 ++ ext) _ HN Hvel Hold). fold w.
    cbv beta iota. unfold SlidingWindow.value. cbn [SlidingWindow._method SlidingWindow._que].
    fold (trending (h3 ++ ext) w). rewrite trending_final by exact Hw3.
    unfold observe.
    cbn [set_trending_velocity set_last _last_position _last_time
         _ground_detected _samples_skipped _trending_velocity _reference_velocity].
    rewrite Hsome, !deref_Some, Hcur, Hr. reflexivity.
Qed.


(** ** Invariants of a cycle *)

Lemma step_ok self h p now r self' h' :
  step self h p now r self' h' -> exists b, r = Ok b.
Proof. destruct 1; eauto. Qed.

Lemma step_latch self h p now r self' h' :
  step self h p now r self' h' ->
  _ground_detected self' = _ground_detected self
  /\ SlidingWindow._size (_trending_velocity self') = SlidingWindow._size (_trending_velocity self)
  /\ SlidingWindow._method (_trending_velocity self')
     = SlidingWindow._method (_trending_velocity self).
Proof.
  destruct 1 as [| | ? ? ? ? ? ? h3 w ? ? | ? ? ? ? ? ? ? h3 w]; cbn; auto.
  destruct (SlidingWindow.valid w); [destruct (_ <=? _)|]; cbn; auto.
Qed.

Lemma counter_invariant_reset self : counter_invariant (reset self).
Proof.
  unfold counter_invariant, reset, SKIP_SAMPLES_COUNT. cbn.
  repeat split; try lia; try discriminate.
Qed.

Lemma step_counter_invariant self h p now r self' h' :
  wf self h -> step self h p now r self' h' ->
  counter_invariant self -> counter_invariant self'.
Proof.
  intros (_ & _ & _ & _ & Hsize & _) Hstep (Hsk & Href & Hvalid & Hlen).
  unfold ROLLING_AVERAGE_WINDOW in Hsize. unfold SKIP_SAMPLES_COUNT in *.
  destruct Hstep as [Hp | lp lt Hp Ht Hc | lp lt Hp Ht Hc Hnone h3 w self1 self2 | lp lt ref Hp Ht Hc Hsome h3 w].
  - repeat split; cbn; try tauto; try lia; apply Href.
  - repeat split; try tauto; try lia; apply Href.
  - pose proof (length_pushed_exact (_trending_velocity self) (length h + 2) Hsize Hlen) as Hpush.
    fold w in Hpush.
    assert (Hw5 : SlidingWindow._size w = 5) by (subst w; cbn; exact Hsize).
    assert (Hsk5 : _samples_skipped self <= 5) by (apply Href, Hnone).
    unfold SKIP_SAMPLES_COUNT.
    destruct (SlidingWindow.valid w) eqn:Hv.
    + destruct (Z.leb_spec (_samples_skipped self + 1) 5) as [Hle|Hgt].
      * unfold counter_invariant, SKIP_SAMPLES_COUNT.
        cbn [self2 self1 set_samples_skipped set_trending_velocity set_last
             _samples_skipped _reference_velocity _trending_velocity].
        repeat split; try lia; auto.
      * unfold counter_invariant, SKIP_SAMPLES_COUNT.
        cbn [self2 self1 set_reference_velocity set_samples_skipped set_trending_velocity set_last
             _samples_skipped _reference_velocity _trending_velocity].
        repeat split; try lia; auto; try discriminate.
    + unfold counter_invariant, SKIP_SAMPLES_COUNT.
      cbn [self1 set_trending_velocity set_last
           _samples_skipped _reference_velocity _trending_velocity].
      assert (Hsk0 : _samples_skipped self < 1).
      { destruct (Z.lt_ge_cases (_samples_skipped self) 1) as [|Hge]; [assumption|].
        specialize (Hvalid Hge). unfold SlidingWindow.valid in Hvalid, Hv.
        apply Z.eqb_eq in Hvalid. apply Z.eqb_neq in Hv. lia. }
      repeat split; try lia; auto.
  - pose proof (length_pushed_exact (_trending_velocity self) (length h + 2) Hsize Hlen) as Hpush.
    fold w in Hpush.
    assert (Hw5 : SlidingWindow._size w = 5) by (subst w; cbn; exact Hsize).
    assert (Hsk6 : _samples_skipped self = 6).
    { destruct (Z.le_gt_cases (_samples_skipped self) 5) as [Hle|]; [|lia].
      apply Href in Hle. congruence. }
    assert (Hfull : SlidingWindow.valid (_trending_velocity self) = true) by (apply Hvalid; lia).
    unfold SlidingWindow.valid in Hfull. apply Z.eqb_eq in Hfull.
    unfold counter_invariant, SKIP_SAMPLES_COUNT.
    cbn [set_trending_velocity set_last _samples_skipped _reference_velocity _trending_velocity].
    repeat split; try lia; try congruence.
    + intros _. unfold SlidingWindow.valid. apply Z.eqb_eq. lia.
Qed.

Lemma detect_all_counter_invariant ks : forall self h,
  wf self h -> counter_invariant self -> counter_invariant (detect_all self h ks).1.2.
Proof.
  induction ks as [|k ks IH]; intros self h Hwf Hinv; [exact Hinv|].
  cbn [detect_all].
  destruct (detect_cases self k h Hwf) as (r & self1 & h1 & -> & Hcase).
  assert (H1 : wf self1 h1 /\ counter_invariant self1).
  { destruct Hcase as [[-> ->] | [p Hstep]]; [auto|].
    split; [eapply step_wf | eapply step_counter_invariant]; eassumption. }
  destruct H1 as [Hwf1 Hinv1]. specialize (IH self1 h1 Hwf1 Hinv1).
  destruct (detect_all self1 h1 ks) as [[rs self'] h']. exact IH.
Qed.

(** ** Further properties of the window and of the pull-based strategy *)

(** X1. A window of capacity zero or less cannot take a value: the first
    [append] pops the empty deque and raises [IndexError], and so does any
    stream of appends that is not empty. *)
Theorem append_raises_without_capacity {A B : Type} (N : Z) (method : list A -> B)
    (val : A) (vals : list A) :
  N <= 0 ->
  SlidingWindow.append (SlidingWindow.__init__ N method) val = Raise IndexError
  /\ SlidingWindow.appends (SlidingWindow.__init__ N method) (val :: vals) = Raise IndexError.
Proof.
  intros HN.
  assert (Happ : SlidingWindow.append (SlidingWindow.__init__ N method) val = Raise IndexError).
  { unfold SlidingWindow.append, SlidingWindow.__init__. cbn [SlidingWindow._que SlidingWindow._size length].
    destruct (Z.geb_spec (Z.of_nat 0) N); [reflexivity | lia]. }
  split; [exact Happ|]. cbn [SlidingWindow.appends]. rewrite Happ. reflexivity.
Qed.

Lemma append_raises_without_capacity_witness :
  0 <= 0
  /\ SlidingWindow.append (SlidingWindow.__init__ 0 (@length nat)) 7%nat = Raise IndexError
  /\ SlidingWindow.appends (SlidingWindow.__init__ 0 (@length nat)) [7; 8]%nat = Raise IndexError.
Proof.
  split; [lia|]. apply (append_raises_without_capacity 0 (@length nat) 7%nat [8]%nat). lia.
Defined.

(** X2. On a well-formed detector in the pull-based strategy, over any run of
    calls of [detect()]: a call whose lookup failed raises [AttributeError],
    and a call whose lookup returned a position returns a boolean; no other
    exception comes out of the detector. *)
Theorem detect_raises_only_on_failed_lookup ks : forall self h,
  wf self h -> _check_ground_method self = bound_tf_2_method ->
  Forall2 (fun k r => match _tf_lookup_position (tf k) with
                      | None => r = Raise AttributeError
                      | Some _ => exists b, r = Ok b
                      end)
          ks (detect_all self h ks).1.1.
Proof.
  induction ks as [|k ks IH]; intros self h Hwf Hm; [constructor|].
  cbn [detect_all].
  destruct (detect_cases self k h Hwf) as (r & self1 & h1 & Hdet & Hcase).
  rewrite Hdet.
  assert (H1 : wf self1 h1 /\ _check_ground_method self1 = bound_tf_2_method).
  { destruct Hcase as [[-> ->] | [p Hstep]]; [auto|].
    split; [eapply step_wf; eassumption|].
    rewrite (proj1 (step_methods _ _ _ _ _ _ _ Hstep)). exact Hm. }
  destruct H1 as [Hwf1 Hm1]. specialize (IH self1 h1 Hwf1 Hm1).
  destruct (detect_all self1 h1 ks) as [[rs self'] h']. cbn [fst] in *.
  constructor; [|exact IH].
  unfold detect, _tf_2_method in Hdet. rewrite Hm in Hdet.
  destruct (_tf_lookup_position (tf k)) as [p|].
  - destruct (check_condition_step self p (clock k) h Hwf) as (r' & self'' & h'' & Heq & Hstep).
    rewrite Heq in Hdet. injection Hdet as <- _ _. eapply step_ok, Hstep.
  - rewrite check_condition_None in Hdet. congruence.
Qed.

Lemma detect_raises_only_on_failed_lookup_witness :
  let ks := [sample 0 0 0 0; {| tf := LookupException; clock := 1 |}; sample 0 0 (-1) 2] in
  wf __init__ [] /\ _check_ground_method __init__ = bound_tf_2_method
  /\ Forall2 (fun k r => match _tf_lookup_position (tf k) with
                         | None => r = Raise AttributeError
                         | Some _ => exists b, r = Ok b
                         end)
             ks (detect_all __init__ [] ks).1.1.
Proof.
  intros ks. split; [apply wf_init|]. split; [reflexivity|].
  exact (detect_raises_only_on_failed_lookup ks __init__ [] (wf_init []) eq_refl).
Defined.

(** X3. No call of [detect()] writes the latch, the two method attributes,
    or the capacity and the method of the window: over any run they are what
    they were. In the pull-based strategy [_ground_detected] therefore stays
    false from [reset()] on. *)
Theorem detect_never_sets_latch ks : forall self h,
  wf self h ->
  let self' := (detect_all self h ks).1.2 in
  _ground_detected self' = _ground_detected self
  /\ _check_ground_method self' = _check_ground_method self
  /\ _query_ground_position_method self' = _query_ground_position_method self
  /\ SlidingWindow._size (_trending_velocity self') = SlidingWindow._size (_trending_velocity self)
  /\ SlidingWindow._method (_trending_velocity self')
     = SlidingWindow._method (_trending_velocity self).
Proof.
  induction ks as [|k ks IH]; intros self h Hwf; [cbn; auto|].
  cbn [detect_all].
  destruct (detect_cases self k h Hwf) as (r & self1 & h1 & -> & Hcase).
  assert (Hwf1 : wf self1 h1).
  { destruct Hcase as [[-> ->] | [p Hstep]]; [exact Hwf | eapply step_wf; eassumption]. }
  specialize (IH self1 h1 Hwf1). cbv zeta in IH.
  destruct (detect_all self1 h1 ks) as [[rs self'] h']. cbn [fst snd] in *.
  destruct Hcase as [[-> ->] | [p Hstep]]; [exact IH|].
  destruct (step_latch _ _ _ _ _ _ _ Hstep) as (H1 & H2 & H3).
  destruct (step_methods _ _ _ _ _ _ _ Hstep) as (H4 & H5).
  destruct IH as (I1 & I2 & I3 & I4 & I5). repeat split; congruence.
Qed.

Lemma detect_never_sets_latch_witness :
  let self' := (detect_all __init__ [] sideways_then_down).1.2 in
  wf __init__ []
  /\ _ground_detected self' = _ground_detected __init__
  /\ _check_ground_method self' = _check_ground_method __init__
  /\ _query_ground_position_method self' = _query_ground_position_method __init__
  /\ SlidingWindow._size (_trending_velocity self')
     = SlidingWindow._size (_trending_velocity __init__)
  /\ SlidingWindow._method (_trending_velocity self')
     = SlidingWindow._method (_trending_velocity __init__).
Proof.
  split; [apply wf_init|].
  exact (detect_never_sets_latch sideways_then_down __init__ [] (wf_init [])).
Defined.

(** X4. Over any run of calls of [detect()] from [reset()]: the skip counter
    stays between 0 and [SKIP_SAMPLES_COUNT + 1]; the reference velocity is
    set exactly when the counter has passed [SKIP_SAMPLES_COUNT]; the window
    never holds more than five velocities, and it is full as soon as the
    counter is at least one, so whenever the reference velocity is set. *)
Theorem skip_counter_reference_and_window_agree self h ks :
  let self' := (detect_all (reset self) h ks).1.2 in
  0 <= _samples_skipped self' <= SKIP_SAMPLES_COUNT + 1
  /\ (_reference_velocity self' = None <-> _samples_skipped self' <= SKIP_SAMPLES_COUNT)
  /\ (1 <= _samples_skipped self' -> SlidingWindow.valid (_trending_velocity self') = true)
  /\ (is_Some (_reference_velocity self') ->
        SlidingWindow.valid (_trending_velocity self') = true)
  /\ (length (SlidingWindow._que (_trending_velocity self')) <= 5)%nat.
Proof.
  intros self'.
  pose proof (detect_all_counter_invariant ks (reset self) h (wf_reset self h)
                (counter_invariant_reset self)) as (Hsk & Href & Hvalid & Hlen).
  fold self' in Hsk, Href, Hvalid, Hlen.
  repeat split; try tauto; try lia.
  intros [ref Hsome]. apply Hvalid.
  destruct (Z.le_gt_cases (_samples_skipped self') SKIP_SAMPLES_COUNT) as [Hle|Hgt].
  - apply Href in Hle. congruence.
  - unfold SKIP_SAMPLES_COUNT in Hgt. lia.
Qed.

(** X5. From [reset()], in the pull-based strategy, each of the first eleven
    calls of [detect()] with a position returns false, whatever the samples:
    the earliest call that can return true is the twelfth. *)
Theorem detect_false_for_eleven_calls self h (samples : list (Vector3 * float)) :
  _check_ground_method self = bound_tf_2_method ->
  take 11 (detect_all (reset self) h (tick_of <$> samples)).1.1
  = replicate (min 11 (length samples)) (Ok false).
Proof.
  intros Hm. rewrite detect_all_take, <- fmap_take.
  rewrite (detect_all_warming _ 0).
  - rewrite length_take. reflexivity.
  - apply wf_reset.
  - exact Hm.
  - apply warming_reset.
  - rewrite length_take. lia.
Qed.

Lemma detect_false_for_eleven_calls_witness :
  _check_ground_method __init__ = bound_tf_2_method
  /\ take 11 (detect_all (reset __init__) [] (tick_of <$> steady_samples)).1.1
     = replicate (min 11 (length steady_samples)) (Ok false).
Proof.
  split; [reflexivity|].
  exact (detect_false_for_eleven_calls __init__ [] steady_samples eq_refl).
Defined.

(** X6. The call that sets the reference velocity returns false, finds the
    window full, and sets the reference to a new array that holds the mean of
    the five velocities of the window, the velocity of this sample included. *)
Theorem reference_is_mean_of_full_window self p now h ref :
  wf self h ->
  _reference_velocity self = None ->
  _reference_velocity (_check_condition self (Some p) now h).1.2 = Some ref ->
  let '(r, self', h') := _check_condition self (Some p) now h in
  r = Ok false
  /\ SlidingWindow.valid (_trending_velocity self') = true
  /\ length (SlidingWindow._que (_trending_velocity self')) = 5%nat
  /\ (length h <= ref < length h')%nat
  /\ deref h' ref = np.mean_axis0 (deref h' <$> SlidingWindow._que (_trending_velocity self'))
  /\ (exists lp lt,
        _last_position self = Some lp /\ _last_time self = Some lt
        /\ head (deref h' <$> SlidingWindow._que (_trending_velocity self'))
           = Some (velocity p (deref h lp) (now - lt))).
Proof.
  intros Hwf Hnone.
  destruct (check_condition_step self p now h Hwf) as (r & self' & h' & -> & Hstep).
  cbn [fst snd]. intros Hsome.
  destruct (step_reference_assigned _ _ _ _ _ _ _ _ Hwf Hstep Hnone Hsome)
    as (_ & Hvalid & Hfresh & Hmean).
  pose proof (step_reference_unset _ _ _ _ _ _ _ Hstep Hnone) as ->.
  pose proof (step_wf _ _ _ _ _ _ _ Hwf Hstep) as (_ & _ & _ & _ & Hsize' & _).
  split; [reflexivity|]. split; [exact Hvalid|].
  split. { unfold SlidingWindow.valid in Hvalid. apply Z.eqb_eq in Hvalid.
           rewrite Hsize' in Hvalid. unfold ROLLING_AVERAGE_WINDOW in Hvalid. lia. }
  split; [exact Hfresh|]. split; [exact Hmean|].
  destruct Hwf as (_ & _ & _ & Hque & _).
  destruct Hstep as [Hp | lp lt Hp Ht Hc | lp lt Hp Ht Hc _ h3 w self1 self2 | lp lt ref' Hp Ht Hc Hs h3 w];
    try (cbn in Hsome; congruence).
  exists lp, lt. split; [exact Hp|]. split; [exact Ht|].
  assert (Hvel : forall ext, deref (h3 ++ ext) (length h + 2)%nat = velocity p (deref h lp) (now - lt)).
  { intros ext. rewrite deref_app_l by (subst h3; rewrite length_app; cbn [length]; lia). subst h3.
    change [current_position p; delta_d p (deref h lp); velocity p (deref h lp) (now - lt)]
      with ([current_position p; delta_d p (deref h lp)] ++ [velocity p (deref h lp) (now - lt)]).
    rewrite app_assoc.
    replace (length h + 2)%nat with (length (h ++ [current_position p; delta_d p (deref h lp)]))
      by (rewrite length_app; reflexivity).
    apply deref_alloc. }
  destruct (SlidingWindow.valid w); [|cbn in Hsome; congruence].
  destruct (_ <=? _); [cbn in Hsome; congruence|].
  cbn [andb negb self2 self1 set_reference_velocity set_samples_skipped set_trending_velocity
       _trending_velocity w pushed SlidingWindow._que fmap list_fmap head].
  rewrite Hvel. reflexivity.
Qed.

Lemma reference_is_mean_of_full_window_witness :
  let self := (detect_all __init__ [] (take 10 steady_descent)).1.2 in
  let h := (detect_all __init__ [] (take 10 steady_descent)).2 in
  let p := vector3 0 0 (-10) in
  let now := 10%float in
  let ref := 31%nat in
  wf self h
  /\ _reference_velocity self = None
  /\ _reference_velocity (_check_condition self (Some p) now h).1.2 = Some ref
  /\ (let '(r, self', h') := _check_condition self (Some p) now h in
      r = Ok false
      /\ SlidingWindow.valid (_trending_velocity self') = true
      /\ length (SlidingWindow._que (_trending_velocity self')) = 5%nat
      /\ (length h <= ref < length h')%nat
      /\ deref h' ref = np.mean_axis0 (deref h' <$> SlidingWindow._que (_trending_velocity self'))
      /\ (exists lp lt,
            _last_position self = Some lp /\ _last_time self = Some lt
            /\ head (deref h' <$> SlidingWindow._que (_trending_velocity self'))
               = Some (velocity p (deref h lp) (now - lt)))).
Proof.
  intros self h p now ref.
  assert (Hwf : wf self h) by apply detect_all_wf, wf_init.
  assert (Hnone : _reference_velocity self = None) by (vm_compute; reflexivity).
  assert (Hsome : _reference_velocity (_check_condition self (Some p) now h).1.2 = Some ref)
    by (vm_compute; reflexivity).
  clearbody self h p now ref.
  repeat (split; [assumption|]).
  exact (reference_is_mean_of_full_window self p now h ref Hwf Hnone Hsome).
Defined.

(** ** Values and addresses *)

(** X7. On a well-formed detector a call of [_check_condition] with a
    position does on the heap what [check_values] does on the values: the
    outcome is the same and the values the detector holds afterwards are the
    values computed. Which addresses the arrays have, and what else is on the
    heap, has no part in it. *)
Theorem check_condition_computes_on_values self p now h :
  wf self h ->
  let '(r, self', h') := _check_condition self (Some p) now h in
  check_values (observe self h) p now = (r, observe self' h').
Proof.
  intros Hwf.
  destruct (check_condition_step self p now h Hwf) as (r & self' & h' & -> & Hstep).
  apply step_on_values; assumption.
Qed.

Lemma check_condition_computes_on_values_witness :
  let self := (detect_all __init__ [] steady_descent).1.2 in
  let h := (detect_all __init__ [] steady_descent).2 in
  let p := vector3 1 0 (-12) in
  let now := 12%float in
  wf self h
  /\ (let '(r, self', h') := _check_condition self (Some p) now h in
      check_values (observe self h) p now = (r, observe self' h')).
Proof.
  intros self h p now.
  assert (Hwf : wf self h) by apply detect_all_wf, wf_init.
  clearbody self h p now.
  split; [exact Hwf|].
  exact (check_condition_computes_on_values self p now h Hwf).
Defined.

(** Two well-formed detectors that hold the same values and use the same
    strategy give the same outcomes on the same ticks. *)
Lemma detect_all_on_values ks : forall self1 h1 self2 h2,
  wf self1 h1 -> wf self2 h2 ->
  _check_ground_method self1 = _check_ground_method self2 ->
  observe self1 h1 = observe self2 h2 ->
  (detect_all self1 h1 ks).1.1 = (detect_all self2 h2 ks).1.1
  /\ observe (detect_all self1 h1 ks).1.2 (detect_all self1 h1 ks).2
     = observe (detect_all self2 h2 ks).1.2 (detect_all self2 h2 ks).2.
Proof.
  induction ks as [|k ks IH]; intros self1 h1 self2 h2 Hwf1 Hwf2 Hm Hobs; [auto|].
  cbn [detect_all].
  assert (Hone : exists r s1 g1 s2 g2,
             detect self1 k h1 = (r, s1, g1) /\ detect self2 k h2 = (r, s2, g2)
             /\ wf s1 g1 /\ wf s2 g2
             /\ _check_ground_method s1 = _check_ground_method s2
             /\ observe s1 g1 = observe s2 g2).
  { unfold detect, _tf_2_method, _gazebo_link_states_method. rewrite <- Hm.
    destruct (_check_ground_method self1) eqn:Hm1.
    - destruct (_tf_lookup_position (tf k)) as [p|].
      + destruct (check_condition_step self1 p (clock k) h1 Hwf1) as (r1 & s1 & g1 & -> & Hs1).
        destruct (check_condition_step self2 p (clock k) h2 Hwf2) as (r2 & s2 & g2 & -> & Hs2).
        pose proof (step_on_values _ _ _ _ _ _ _ Hwf1 Hs1) as Hv1.
        pose proof (step_on_values _ _ _ _ _ _ _ Hwf2 Hs2) as Hv2.
        rewrite Hobs, Hv2 in Hv1.
        pose proof (f_equal fst Hv1) as Hr. pose proof (f_equal snd Hv1) as Ho.
        cbn [fst snd] in Hr, Ho.
        exists r1, s1, g1, s2, g2. subst r2.
        split; [reflexivity|]. split; [reflexivity|].
        split; [exact (step_wf _ _ _ _ _ _ _ Hwf1 Hs1)|].
        split; [exact (step_wf _ _ _ _ _ _ _ Hwf2 Hs2)|].
        split; [|symmetry; exact Ho].
        rewrite (proj1 (step_methods _ _ _ _ _ _ _ Hs1)), (proj1 (step_methods _ _ _ _ _ _ _ Hs2)).
        congruence.
      + exists (Raise AttributeError), self1, h1, self2, h2.
        rewrite !check_condition_None.
        split; [reflexivity|]. split; [reflexivity|]. split; [exact Hwf1|]. split; [exact Hwf2|].
        split; [congruence | exact Hobs].
    - exists (Ok (_ground_detected self1)), self1, h1, self2, h2.
      assert (Hg : _ground_detected self1 = _ground_detected self2)
        by exact (f_equal ground_detected_value Hobs).
      rewrite <- Hg.
      split; [reflexivity|]. split; [reflexivity|]. split; [exact Hwf1|]. split; [exact Hwf2|].
      split; [congruence | exact Hobs]. }
  destruct Hone as (r & s1 & g1 & s2 & g2 & -> & -> & Hw1 & Hw2 & Hm' & Hobs').
  destruct (IH s1 g1 s2 g2 Hw1 Hw2 Hm' Hobs') as [Hrs Hfin].
  destruct (detect_all s1 g1 ks) as [[rs1 t1] f1].
  destruct (detect_all s2 g2 ks) as [[rs2 t2] f2].
  cbn [fst snd] in *. split; [congruence | exact Hfin].
Qed.

(** X8. After [reset()] a detector of the pull-based strategy answers as a
    new one does: on any ticks, whatever it went through before and whatever
    arrays exist, the outcomes of the calls of [detect()] are those of a
    detector that was just constructed. *)
Theorem reset_behaves_as_new self h ks :
  _check_ground_method self = bound_tf_2_method ->
  (detect_all (reset self) h ks).1.1 = (detect_all __init__ [] ks).1.1.
Proof.
  intros Hm.
  apply (detect_all_on_values ks (reset self) h __init__ []).
  - apply wf_reset.
  - apply wf_init.
  - exact Hm.
  - reflexivity.
Qed.

Lemma reset_behaves_as_new_witness :
  let self := (detect_all __init__ [] sideways_then_down).1.2 in
  let h := (detect_all __init__ [] sideways_then_down).2 in
  _check_ground_method self = bound_tf_2_method
  /\ (detect_all (reset self) h steady_descent).1.1 = (detect_all __init__ [] steady_descent).1.1.
Proof.
  intros self h.
  assert (Hm : _check_ground_method self = bound_tf_2_method) by (vm_compute; reflexivity).
  clearbody self h.
  split; [exact Hm|].
  exact (reset_behaves_as_new self h steady_descent Hm).
Defined.

(** ** The position that is reported *)

(** [ground_position] after a call of [detect()], pull-based strategy. *)
Lemma ground_position_after_detect getitem self k t h :
  wf self h ->
  _check_ground_method self = bound_tf_2_method ->
  _query_ground_position_method self = lambda_last_position ->
  ground_position getitem (detect self k h).1.2 t (detect self k h).2
  = match _tf_lookup_position (tf k) with
    | Some p =>
        if accepts self (clock k) then Ok (point (x p) (y p) (z p))
        else ground_position getitem self t h
    | None => ground_position getitem self t h
    end.
Proof.
  intros Hwf Hm Hq. unfold detect, _tf_2_method. rewrite Hm.
  destruct (_tf_lookup_position (tf k)) as [p|]; [|rewrite check_condition_None; reflexivity].
  destruct (check_condition_step self p (clock k) h Hwf) as (r & self' & h' & -> & Hstep).
  cbn [fst snd].
  pose proof (proj2 (step_methods _ _ _ _ _ _ _ Hstep)) as Hq'. rewrite Hq in Hq'.
  unfold ground_position, accepts. rewrite Hq, Hq'.
  destruct Hwf as (_ & Hlp & _).
  destruct Hstep as [Hp | lp lt Hp Ht Hc | lp lt Hp Ht Hc Hnone h3 w self1 self2 | lp lt ref Hp Ht Hc Hsome h3 w].
  - rewrite Hp. cbn [set_last _last_position]. rewrite deref_alloc. reflexivity.
  - rewrite Hp, Ht, Hc. cbn [negb]. rewrite deref_app_l by eauto. reflexivity.
  - rewrite Hp, Ht, Hc. cbn [negb].
    assert (Hcur : forall ext, deref (h3 ++ ext) (length h) = current_position p).
    { intros ext. subst h3. rewrite <- app_assoc. apply deref_app_cons. }
    pose proof (Hcur []) as Hcur0. rewrite app_nil_r in Hcur0.
    destruct (SlidingWindow.valid w); [destruct (_ <=? _)|]; cbn [andb negb];
      cbn [self2 self1 set_reference_velocity set_samples_skipped set_trending_velocity set_last
           _last_position]; rewrite ?Hcur, ?Hcur0; reflexivity.
  - rewrite Hp, Ht, Hc. cbn [negb set_trending_velocity set_last _last_position].
    subst h3. rewrite <- app_assoc. cbn [app]. rewrite deref_app_cons. reflexivity.
Qed.

(** X9. In the pull-based strategy, after a call of [detect()] on a
    well-formed detector, [ground_position] is the point of the position just
    looked up when the sample was accepted (the first of a cycle, or one
    outside the tolerance of the last time), and it is what it was before the
    call when the sample was dropped or the lookup failed. *)
Theorem ground_position_is_last_accepted getitem self k t h :
  wf self h ->
  _check_ground_method self = bound_tf_2_method ->
  _query_ground_position_method self = lambda_last_position ->
  let '(r, self', h') := detect self k h in
  ground_position getitem self' t h'
  = match _tf_lookup_position (tf k) with
    | Some p =>
        if accepts self (clock k) then Ok (point (x p) (y p) (z p))
        else ground_position getitem self t h
    | None => ground_position getitem self t h
    end.
Proof.
  intros Hwf Hm Hq.
  pose proof (ground_position_after_detect getitem self k t h Hwf Hm Hq) as Hgp.
  destruct (detect self k h) as [[r self'] h']. exact Hgp.
Qed.

Lemma ground_position_is_last_accepted_witness :
  let self := (detect_all __init__ [] [sample 0 0 0 0]).1.2 in
  let h := (detect_all __init__ [] [sample 0 0 0 0]).2 in
  let k := sample 0 0 (-1) 1 in
  let getitem : Vector3 -> Z -> result float := fun _ _ => Raise TypeError in
  wf self h
  /\ _check_ground_method self = bound_tf_2_method
  /\ _query_ground_position_method self = lambda_last_position
  /\ (let '(r, self', h') := detect self k h in
      ground_position getitem self' LookupException h'
      = match _tf_lookup_position (tf k) with
        | Some p =>
            if accepts self (clock k) then Ok (point (x p) (y p) (z p))
            else ground_position getitem self LookupException h
        | None => ground_position getitem self LookupException h
        end).
Proof.
  intros self h k getitem.
  assert (Hwf : wf self h) by apply detect_all_wf, wf_init.
  assert (Hm : _check_ground_method self = bound_tf_2_method) by (vm_compute; reflexivity).
  assert (Hq : _query_ground_position_method self = lambda_last_position)
    by (vm_compute; reflexivity).
  clearbody self h k getitem.
  repeat (split; [assumption|]).
  exact (ground_position_is_last_accepted getitem self k LookupException h Hwf Hm Hq).
Defined.

(** ** The push-based strategy: messages *)

Lemma index_None names s : index names s = None <-> ~ In s names.
Proof.
  induction names as [|n names IH]; cbn [index In].
  - tauto.
  - destruct (String.eqb_spec n s) as [->|Hne].
    + split; [discriminate | tauto].
    + destruct (index names s) as [i|] eqn:Hi; cbn.
      * split; [discriminate|]. intros Hnot. exfalso.
        assert (Hin : ~ In s names) by tauto. apply IH in Hin. discriminate.
      * split; [|reflexivity]. intros _ [Heq|Hin]; [congruence|].
        destruct IH as [IH _]. exact (IH eq_refl Hin).
Qed.

(** [index] finds the first occurrence. *)
Lemma index_Some names s : forall i,
  index names s = Some i <->
  names !! i = Some s /\ forall j, (j < i)%nat -> names !! j <> Some s.
Proof.
  induction names as [|n names IH]; intros i; cbn [index].
  - split; [discriminate | intros [[=] _]].
  - destruct (String.eqb_spec n s) as [->|Hne].
    + split.
      * intros [= <-]. split; [reflexivity | intros j Hj; lia].
      * intros [Hi Hfirst]. destruct i as [|i]; [reflexivity|].
        exfalso. apply (Hfirst 0%nat); [lia | reflexivity].
    + destruct i as [|i].
      * split.
        -- destruct (index names s); discriminate.
        -- intros [[= ->] _]. congruence.
      * specialize (IH i). destruct (index names s) as [i'|] eqn:Hi; cbn.
        -- split.
           ++ intros [= ->]. destruct IH as [IH _]. destruct (IH eq_refl) as [Hi' Hfirst].
              split; [exact Hi'|]. intros [|j] Hj; cbn; [congruence | apply Hfirst; lia].
           ++ intros [Hs Hfirst]. f_equal. destruct IH as [_ IH].
              assert (Heq : Some i' = Some i); [|congruence].
              apply IH. split; [exact Hs|]. intros j Hj. apply (Hfirst (S j)). lia.
        -- split; [discriminate|]. intros [Hs Hfirst]. destruct IH as [_ IH].
           assert (Heq : None = Some i); [|discriminate].
           apply IH. split; [exact Hs|]. intros j Hj. apply (Hfirst (S j)). lia.
Qed.

Lemma wf_set_ground_detected self b h : wf self h -> wf (set_ground_detected self b) h.
Proof. intros Hwf. exact Hwf. Qed.

(** What a message does to a well-formed detector. *)
Lemma handle_link_states_cases self data now h :
  wf self h ->
  (_handle_link_states self data now h = (Ok tt, self, h)
   /\ (_ground_detected self = true \/ index (name data) l_scoop_tip = None))
  \/ (_handle_link_states self data now h = (Raise IndexError, self, h)
      /\ _ground_detected self = false
      /\ exists i, index (name data) l_scoop_tip = Some i /\ pose data !! i = None)
  \/ (exists i ps b self' h',
        _ground_detected self = false
        /\ index (name data) l_scoop_tip = Some i /\ pose data !! i = Some ps
        /\ _check_condition self (Some (position ps)) now h = (Ok b, self', h')
        /\ step self h (position ps) now (Ok b) self' h'
        /\ _handle_link_states self data now h = (Ok tt, set_ground_detected self' b, h')).
Proof.
  intros Hwf. unfold _handle_link_states. fold l_scoop_tip.
  destruct (_ground_detected self) eqn:Hd; [left; auto|].
  destruct (index (name data) l_scoop_tip) as [i|] eqn:Hi; [|left; auto].
  destruct (pose data !! i) as [ps|] eqn:Hps; [|right; left; eauto].
  right; right.
  destruct (check_condition_step self (position ps) now h Hwf) as (r & self' & h' & Heq & Hstep).
  destruct (step_ok _ _ _ _ _ _ _ Hstep) as [b ->].
  exists i, ps, b, self', h'. rewrite Heq. auto 10.
Qed.

Lemma handle_all_app msgs1 : forall msgs2 self h,
  handle_all self h (msgs1 ++ msgs2)
  = handle_all (handle_all self h msgs1).1 (handle_all self h msgs1).2 msgs2.
Proof.
  induction msgs1 as [|[data now] msgs1 IH]; intros msgs2 self h; [reflexivity|].
  cbn [app handle_all]. destruct (_handle_link_states self data now h) as [[r self'] h'].
  apply IH.
Qed.

Lemma handle_all_warming msgs : forall k self h,
  wf self h -> warming k self -> _ground_detected self = false ->
  (k + length msgs <= 11)%nat ->
  _ground_detected (handle_all self h msgs).1 = false.
Proof.
  induction msgs as [|[data now] msgs IH]; intros k self h Hwf Hwarm Hd Hk; [exact Hd|].
  cbn [handle_all]. cbn [length] in Hk.
  destruct (handle_link_states_cases self data now h Hwf)
    as [[-> _] | [[-> _] | (i & ps & b & self' & h' & _ & _ & _ & _ & Hstep & ->)]].
  - apply (IH k); [assumption..| lia].
  - apply (IH k); [assumption..| lia].
  - pose proof (step_reference_unset _ _ _ _ _ _ _ Hstep (proj1 Hwarm)) as [= ->].
    destruct msgs as [|m msgs']; [reflexivity|].
    apply (IH (S k)).
    + apply wf_set_ground_detected. eapply step_wf; eassumption.
    + cbn [length] in Hk.
      exact (step_warming k _ _ _ _ _ _ _ Hwf Hstep Hwarm ltac:(lia)).
    + reflexivity.
    + cbn [length] in *. lia.
Qed.

(** X10. A message that does not list the tip is ignored: the handler
    returns, and the detector and the heap are what they were. *)
Theorem handle_link_states_ignores_message_without_tip self data now h :
  ~ In l_scoop_tip (name data) ->
  _handle_link_states self data now h = (Ok tt, self, h).
Proof.
  intros Hnot. apply index_None in Hnot. unfold _handle_link_states. fold l_scoop_tip.
  rewrite Hnot. destruct (_ground_detected self); reflexivity.
Qed.

Lemma handle_link_states_ignores_message_without_tip_witness :
  let data := {| name := ["lander::base_link"; "lander::l_shou"];
                 pose := [{| position := vector3 0 0 0 |}; {| position := vector3 1 2 3 |}] |} in
  ~ In l_scoop_tip (name data)
  /\ _handle_link_states __init__ data 0 [] = (Ok tt, __init__, []).
Proof.
  intros data.
  assert (Hnot : ~ In l_scoop_tip (name data)).
  { cbn. intros [Heq | [Heq | []]]; discriminate. }
  split; [exact Hnot|].
  exact (handle_link_states_ignores_message_without_tip __init__ data 0 [] Hnot).
Defined.

(** X11. On a well-formed detector whose latch is not set, a message that
    lists the tip, with a pose at that index, never raises: the handler runs
    [_check_condition] on the position at the first index where the name
    occurs and stores its verdict in the latch. *)
Theorem handle_link_states_stores_verdict self data now h i ps :
  wf self h -> _ground_detected self = false ->
  name data !! i = Some l_scoop_tip ->
  (forall j, (j < i)%nat -> name data !! j <> Some l_scoop_tip) ->
  pose data !! i = Some ps ->
  exists b self' h',
    _check_condition self (Some (position ps)) now h = (Ok b, self', h')
    /\ _handle_link_states self data now h = (Ok tt, set_ground_detected self' b, h').
Proof.
  intros Hwf Hd Hi Hfirst Hps.
  assert (Hidx : index (name data) l_scoop_tip = Some i) by (apply index_Some; auto).
  destruct (handle_link_states_cases self data now h Hwf)
    as [[_ [Hl|Hn]] | [(_ & _ & i' & Hi' & Hnone) | (i' & ps' & b & self' & h' & _ & Hi' & Hps' & Heq & _ & Hh)]].
  - congruence.
  - congruence.
  - congruence.
  - assert (i' = i) as -> by congruence. assert (ps' = ps) as -> by congruence. eauto.
Qed.

Lemma handle_link_states_stores_verdict_witness :
  let data := (tip_message 0 0 (-1) 1).1 in
  let ps := {| position := vector3 0 0 (-1) |} in
  wf __init__ [] /\ _ground_detected __init__ = false
  /\ name data !! 1%nat = Some l_scoop_tip
  /\ (forall j, (j < 1)%nat -> name data !! j <> Some l_scoop_tip)
  /\ pose data !! 1%nat = Some ps
  /\ exists b self' h',
       _check_condition __init__ (Some (position ps)) 1 [] = (Ok b, self', h')
       /\ _handle_link_states __init__ data 1 [] = (Ok tt, set_ground_detected self' b, h').
Proof.
  intros data ps.
  assert (Hfirst : forall j, (j < 1)%nat -> name data !! j <> Some l_scoop_tip).
  { intros [|j] Hj; [cbn; discriminate | lia]. }
  split; [apply wf_init|]. split; [reflexivity|]. split; [reflexivity|].
  split; [exact Hfirst|]. split; [reflexivity|].
  exact (handle_link_states_stores_verdict __init__ data 1 [] 1%nat ps
           (wf_init []) eq_refl eq_refl Hfirst eq_refl).
Defined.

(** X12. A message that lists the tip at an index at which it has no pose
    makes the handler raise [IndexError], when the latch is not set; the
    detector and the heap are what they were. *)
Theorem handle_link_states_raises_without_pose self data now h i :
  _ground_detected self = false ->
  name data !! i = Some l_scoop_tip ->
  (forall j, (j < i)%nat -> name data !! j <> Some l_scoop_tip) ->
  (length (pose data) <= i)%nat ->
  _handle_link_states self data now h = (Raise IndexError, self, h).
Proof.
  intros Hd Hi Hfirst Hlen.
  assert (Hidx : index (name data) l_scoop_tip = Some i) by (apply index_Some; auto).
  unfold _handle_link_states. fold l_scoop_tip. rewrite Hd, Hidx.
  rewrite (lookup_ge_None_2 (pose data) i Hlen). reflexivity.
Qed.

Lemma handle_link_states_raises_without_pose_witness :
  let data := {| name := [l_scoop_tip]; pose := [] |} in
  _ground_detected __init__ = false
  /\ name data !! 0%nat = Some l_scoop_tip
  /\ (forall j, (j < 0)%nat -> name data !! j <> Some l_scoop_tip)
  /\ (length (pose data) <= 0)%nat
  /\ _handle_link_states __init__ data 0 [] = (Raise IndexError, __init__, []).
Proof.
  intros data.
  assert (Hfirst : forall j, (j < 0)%nat -> name data !! j <> Some l_scoop_tip)
    by (intros j Hj; lia).
  split; [reflexivity|]. split; [reflexivity|]. split; [exact Hfirst|].
  split; [cbn; lia|].
  exact (handle_link_states_raises_without_pose __init__ data 0 [] 0%nat
           eq_refl eq_refl Hfirst (Nat.le_refl 0)).
Defined.

(** X13. From [reset()], the first eleven messages never set the latch,
    whatever they hold: after them [_gazebo_link_states_method] answers
    false. *)
Theorem handle_link_states_false_for_eleven_messages self h msgs :
  let self' := (handle_all (reset self) h (take 11 msgs)).1 in
  _ground_detected self' = false
  /\ forall h', (_gazebo_link_states_method self' h').1.1 = Ok false.
Proof.
  intros self'.
  assert (Hd : _ground_detected self' = false).
  { apply (handle_all_warming _ 0).
    - apply wf_reset.
    - apply warming_reset.
    - reflexivity.
    - rewrite length_take. lia. }
  split; [exact Hd|]. intros h'. unfold _gazebo_link_states_method. rewrite Hd. reflexivity.
Qed.

(** X14. The push-based strategy latches: once the messages delivered have
    set [_ground_detected], further messages change neither the detector nor
    the heap, [_gazebo_link_states_method] answers true, and [reset()] clears
    the latch. *)
Theorem push_strategy_latches self h msgs1 msgs2 :
  _ground_detected (handle_all self h msgs1).1 = true ->
  handle_all self h (msgs1 ++ msgs2) = handle_all self h msgs1
  /\ (forall h', (_gazebo_link_states_method (handle_all self h (msgs1 ++ msgs2)).1 h').1.1
                 = Ok true)
  /\ _ground_detected (reset (handle_all self h (msgs1 ++ msgs2)).1) = false.
Proof.
  intros Hd.
  assert (Happ : handle_all self h (msgs1 ++ msgs2) = handle_all self h msgs1).
  { rewrite handle_all_app.
    destruct (gazebo_link_states_method_latched msgs2 _ (handle_all self h msgs1).2 Hd) as [-> _].
    destruct (handle_all self h msgs1); reflexivity. }
  rewrite Happ. split; [reflexivity|]. split; [|reflexivity].
  intros h'. unfold _gazebo_link_states_method. rewrite Hd. reflexivity.
Qed.

Lemma push_strategy_latches_witness :
  let msgs2 := [tip_message 2 0 (-12) 14; tip_message 2 0 (-13) 15] in
  _ground_detected (handle_all __init__ [] sideways_messages).1 = true
  /\ handle_all __init__ [] (sideways_messages ++ msgs2) = handle_all __init__ [] sideways_messages
  /\ (forall h', (_gazebo_link_states_method
                    (handle_all __init__ [] (sideways_messages ++ msgs2)).1 h').1.1 = Ok true)
  /\ _ground_detected (reset (handle_all __init__ [] (sideways_messages ++ msgs2)).1) = false.
Proof.
  intros msgs2.
  assert (Hd : _ground_detected (handle_all __init__ [] sideways_messages).1 = true)
    by (vm_compute; reflexivity).
  split; [exact Hd|].
  exact (push_strategy_latches __init__ [] sideways_messages msgs2 Hd).
Defined.

(** ** NaN in the vectors *)

Lemma is_nan_eq c : is_nan c = true -> c = nan.
Proof.
  unfold is_nan. rewrite FloatAxioms.eqb_spec, negb_true_iff. intros Hc.
  rewrite <- (SF2Prim_Prim2SF c).
  destruct (Prim2SF c) as [s|s| |s m e]; try reflexivity; exfalso; revert Hc; unfold SFeqb; cbn.
  - discriminate.
  - destruct s; discriminate.
  - rewrite Z.compare_refl, Pos.compare_cont_refl. destruct s; discriminate.
Qed.

Lemma mul_nan_l x : (nan * x)%float = nan.
Proof.
  apply Prim2SF_inj. rewrite FloatAxioms.mul_spec.
  change (Prim2SF nan) with S754_nan. reflexivity.
Qed.

Lemma add_nan_l x : (nan + x)%float = nan.
Proof.
  apply Prim2SF_inj. rewrite FloatAxioms.add_spec.
  change (Prim2SF nan) with S754_nan. reflexivity.
Qed.

Lemma add_nan_r x : (x + nan)%float = nan.
Proof.
  apply Prim2SF_inj. rewrite FloatAxioms.add_spec.
  change (Prim2SF nan) with S754_nan. destruct (Prim2SF x); reflexivity.
Qed.

Lemma div_nan_r x : (x / nan)%float = nan.
Proof.
  apply Prim2SF_inj. rewrite FloatAxioms.div_spec.
  change (Prim2SF nan) with S754_nan. destruct (Prim2SF x); reflexivity.
Qed.

(** A vector with a NaN component has a NaN norm, and dividing by it gives
    NaN in every component. *)
Lemma unit_vector_nan a : has_nan a = true -> unit_vector a = np.array nan nan nan.
Proof.
  destruct a as [a0 a1 a2]. unfold has_nan. cbn [np.item0 np.item1 np.item2].
  intros Hnan.
  assert (Hnorm : np.linalg_norm (np.array a0 a1 a2) = nan).
  { unfold np.linalg_norm, np.dot. cbn [np.item0 np.item1 np.item2].
    apply orb_true_iff in Hnan as [Hnan | H2].
    - apply orb_true_iff in Hnan as [H0 | H1].
      + apply is_nan_eq in H0 as ->. rewrite mul_nan_l, add_nan_r, !add_nan_l. reflexivity.
      + apply is_nan_eq in H1 as ->. rewrite mul_nan_l, add_nan_r, add_nan_l. reflexivity.
    - apply is_nan_eq in H2 as ->. rewrite mul_nan_l, add_nan_r. reflexivity. }
  unfold unit_vector. rewrite Hnorm. unfold np.divide, np.map1.
  cbn [np.item0 np.item1 np.item2]. rewrite !div_nan_r. reflexivity.
Qed.

Lemma dot_nan_l a : np.dot (np.array nan nan nan) a = nan.
Proof.
  unfold np.dot. cbn [np.item0 np.item1 np.item2]. rewrite !mul_nan_l. reflexivity.
Qed.

Lemma cosine_similarity_nan a b :
  has_nan a || has_nan b = true ->
  (cosine_similarity a b <? DIRECTION_TOLERANCE)%float = false.
Proof.
  intros Hnan. unfold cosine_similarity.
  apply orb_true_iff in Hnan as [Ha | Hb].
  - rewrite (unit_vector_nan a Ha), dot_nan_l. reflexivity.
  - rewrite (unit_vector_nan b Hb), dot_nan_r. reflexivity.
Qed.

(** X15. Once the reference velocity is set, an accepted sample does not
    count as a detection when the reference vector or the mean of the window
    has a NaN component: the similarity is NaN, [NaN < 0.95] is false and the
    call returns false. A NaN in the reference therefore silences the
    detector until [reset()]. *)
Theorem nan_vector_is_not_detected self p now h lp lt ref :
  wf self h ->
  _last_position self = Some lp -> _last_time self = Some lt ->
  np.isclose (now - lt) 0 1e-4 = false ->
  _reference_velocity self = Some ref ->
  let '(r, self', h') := _check_condition self (Some p) now h in
  has_nan (deref h ref) || has_nan (trending h' (_trending_velocity self')) = true ->
  r = Ok false.
Proof.
  intros Hwf Hp Ht Hclose Href.
  rewrite (check_condition_compare self p now h lp lt ref) by assumption. cbn zeta.
  destruct Hwf as (_ & _ & _ & Hque & _).
  cbn [set_trending_velocity set_last _trending_velocity].
  rewrite trending_final.
  - intros Hnan. rewrite cosine_similarity_nan by exact Hnan. reflexivity.
  - apply pushed_allocated; [exact Hque|]. rewrite length_app. cbn [length]. lia.
Qed.

Lemma nan_vector_is_not_detected_witness :
  let self := (detect_all __init__ [] steady_descent).1.2 in
  let h := (detect_all __init__ [] steady_descent).2 in
  let p := vector3 0 nan (-12) in
  let now := 12%float in
  wf self h
  /\ _last_position self = Some 32%nat /\ _last_time self = Some 11%float
  /\ np.isclose (now - 11) 0 1e-4 = false
  /\ _reference_velocity self = Some 31%nat
  /\ has_nan (deref h 31%nat)
     || has_nan (trending (_check_condition self (Some p) now h).2
                          (_trending_velocity (_check_condition self (Some p) now h).1.2)) = true
  /\ (let '(r, self', h') := _check_condition self (Some p) now h in
      has_nan (deref h 31%nat) || has_nan (trending h' (_trending_velocity self')) = true ->
      r = Ok false).
Proof.
  intros self h p now.
  assert (Hwf : wf self h) by apply detect_all_wf, wf_init.
  assert (Hp : _last_position self = Some 32%nat) by (vm_compute; reflexivity).
  assert (Ht : _last_time self = Some 11%float) by (vm_compute; reflexivity).
  assert (Hclose : np.isclose (now - 11) 0 1e-4 = false) by (vm_compute; reflexivity).
  assert (Href : _reference_velocity self = Some 31%nat) by (vm_compute; reflexivity).
  assert (Hnan : has_nan (deref h 31%nat)
     || has_nan (trending (_check_condition self (Some p) now h).2
                          (_trending_velocity (_check_condition self (Some p) now h).1.2)) = true)
    by (vm_compute; reflexivity).
  clearbody self h p now.
  repeat (split; [assumption|]).
  exact (nan_vector_is_not_detected self p now h 32%nat 11 31%nat Hwf Hp Ht Hclose Href).
Defined.

(** X16. When a call of [detect()] of the pull-based strategy returns true,
    the lookup of that call returned a position, and [ground_position] read
    right after the call is the point of that position. *)
Theorem ground_position_after_detection getitem self k t h :
  wf self h ->
  _check_ground_method self = bound_tf_2_method ->
  _query_ground_position_method self = lambda_last_position ->
  (detect self k h).1.1 = Ok true ->
  exists p,
    _tf_lookup_position (tf k) = Some p
    /\ ground_position getitem (detect self k h).1.2 t (detect self k h).2
       = Ok (point (x p) (y p) (z p)).
Proof.
  intros Hwf Hm Hq Htrue.
  rewrite (ground_position_after_detect getitem self k t h Hwf Hm Hq).
  unfold detect, _tf_2_method in Htrue. rewrite Hm in Htrue.
  destruct (_tf_lookup_position (tf k)) as [p|];
    [|rewrite check_condition_None in Htrue; discriminate].
  exists p. split; [reflexivity|].
  destruct (check_condition_step self p (clock k) h Hwf) as (r & self' & h' & Heq & Hstep).
  rewrite Heq in Htrue. cbn [fst] in Htrue. subst r.
  unfold accepts.
  inversion Hstep as [Hp | lp lt Hp Ht Hc | lp lt Hp Ht Hc Hnone h3 w self1 self2 | lp lt ref Hp Ht Hc Hsome h3 w].
  rewrite Hp, Ht, Hc. reflexivity.
Qed.

Lemma ground_position_after_detection_witness :
  let self := (detect_all __init__ [] (take 13 sideways_then_down)).1.2 in
  let h := (detect_all __init__ [] (take 13 sideways_then_down)).2 in
  let k := sample 2 0 (-11) 13 in
  let getitem : Vector3 -> Z -> result float := fun _ _ => Raise TypeError in
  wf self h
  /\ _check_ground_method self = bound_tf_2_method
  /\ _query_ground_position_method self = lambda_last_position
  /\ (detect self k h).1.1 = Ok true
  /\ exists p,
       _tf_lookup_position (tf k) = Some p
       /\ ground_position getitem (detect self k h).1.2 LookupException (detect self k h).2
          = Ok (point (x p) (y p) (z p)).
Proof.
  intros self h k getitem.
  assert (Hwf : wf self h) by apply detect_all_wf, wf_init.
  assert (Hm : _check_ground_method self = bound_tf_2_method) by (vm_compute; reflexivity).
  assert (Hq : _query_ground_position_method self = lambda_last_position)
    by (vm_compute; reflexivity).
  assert (Htrue : (detect self k h).1.1 = Ok true) by (vm_compute; reflexivity).
  clearbody self h k getitem.
  repeat (split; [assumption|]).
  exact (ground_position_after_detection getitem self k LookupException h Hwf Hm Hq Htrue).
Defined.

(** ** Streams of samples *)

(** X17. A sample that is dropped changes no later outcome: on a well-formed
    detector of the pull-based strategy, the calls after it return what they
    would have returned without it. *)
Theorem dropped_sample_changes_no_outcome self k p lp lt h ks :
  wf self h ->
  _check_ground_method self = bound_tf_2_method ->
  tf k = Transform p ->
  _last_position self = Some lp -> _last_time self = Some lt ->
  np.isclose (clock k - lt) 0 1e-4 = true ->
  (detect_all self h (k :: ks)).1.1 = Ok false :: (detect_all self h ks).1.1.
Proof.
  intros Hwf Hm Hk Hp Ht Hclose. cbn [detect_all].
  unfold detect at 1, _tf_2_method. rewrite Hm, Hk. cbn [_tf_lookup_position].
  rewrite (check_condition_discard self p (clock k) h lp lt Hp Ht Hclose).
  set (h' := h ++ _).
  destruct (detect_all_on_values ks self h' self h) as [Hrs _].
  - apply wf_extend, Hwf.
  - exact Hwf.
  - reflexivity.
  - apply observe_extend, Hwf.
  - destruct (detect_all self h' ks) as [[rs s'] g']. cbn [fst] in *. rewrite Hrs. reflexivity.
Qed.

Lemma dropped_sample_changes_no_outcome_witness :
  let self := (detect_all __init__ [] (take 11 steady_descent)).1.2 in
  let h := (detect_all __init__ [] (take 11 steady_descent)).2 in
  let p := vector3 5 5 5 in
  let k := {| tf := Transform p; clock := 10.00005 |} in
  let ks := [sample 0 0 (-11) 11; sample 1 0 (-11) 12] in
  wf self h
  /\ _check_ground_method self = bound_tf_2_method
  /\ tf k = Transform p
  /\ _last_position self = Some 28%nat /\ _last_time self = Some 10%float
  /\ np.isclose (clock k - 10) 0 1e-4 = true
  /\ (detect_all self h (k :: ks)).1.1 = Ok false :: (detect_all self h ks).1.1.
Proof.
  intros self h p k ks.
  assert (Hwf : wf self h) by apply detect_all_wf, wf_init.
  assert (Hm : _check_ground_method self = bound_tf_2_method) by (vm_compute; reflexivity).
  assert (Hk : tf k = Transform p) by reflexivity.
  assert (Hp : _last_position self = Some 28%nat) by (vm_compute; reflexivity).
  assert (Ht : _last_time self = Some 10%float) by (vm_compute; reflexivity).
  assert (Hclose : np.isclose (clock k - 10) 0 1e-4 = true) by (vm_compute; reflexivity).
  clearbody self h p k ks.
  repeat (split; [assumption|]).
  exact (dropped_sample_changes_no_outcome self k p 28%nat 10 h ks Hwf Hm Hk Hp Ht Hclose).
Defined.

Lemma set_ground_detected_same self b :
  _ground_detected self = b -> set_ground_detected self b = self.
Proof. destruct self. cbn. intros ->. reflexivity. Qed.

(** X18. The latch of the push-based strategy is the disjunction of the
    verdicts: on a well-formed detector whose latch is not set, after messages
    that bring the samples, [_ground_detected] is true exactly when one of the
    calls of [detect()] of the pull-based strategy on these samples returns
    true. *)
Theorem push_latch_is_some_pull_verdict msgs : forall samples self h,
  wf self h ->
  _check_ground_method self = bound_tf_2_method ->
  _ground_detected self = false ->
  Forall2 carries msgs samples ->
  _ground_detected (handle_all self h msgs).1 = true
  <-> In (Ok true) (detect_all self h (tick_of <$> samples)).1.1.
Proof.
  induction msgs as [|[data now] msgs IH]; intros samples self h Hwf Hm Hd Hcarry.
  - inversion Hcarry; subst. cbn. rewrite Hd. split; [discriminate | tauto].
  - inversion Hcarry as [|m s msgs' samples' (Htime & i & ps & Hi & Hps & Hpos) Hrest]; subst.
    cbn [fst snd] in *. subst now.
    cbn [handle_all fmap list_fmap detect_all].
    rewrite detect_sample by exact Hm.
    destruct (check_condition_step self s.1 s.2 h Hwf) as (r & self' & h' & Heq & Hstep).
    destruct (step_ok _ _ _ _ _ _ _ Hstep) as [b ->].
    unfold _handle_link_states. fold l_scoop_tip. rewrite Hd, Hi, Hps, Hpos, Heq.
    pose proof (step_wf _ _ _ _ _ _ _ Hwf Hstep) as Hwf'.
    pose proof (proj1 (step_latch _ _ _ _ _ _ _ Hstep)) as Hd'. rewrite Hd in Hd'.
    pose proof (proj1 (step_methods _ _ _ _ _ _ _ Hstep)) as Hm'. rewrite Hm in Hm'.
    destruct b.
    + destruct (gazebo_link_states_method_latched msgs (set_ground_detected self' true) h' eq_refl)
        as [-> _].
      destruct (detect_all self' h' (tick_of <$> samples')) as [[rs s''] g''].
      cbn. tauto.
    + rewrite (set_ground_detected_same self' false Hd').
      specialize (IH samples' self' h' Hwf' Hm' Hd' Hrest).
      destruct (detect_all self' h' (tick_of <$> samples')) as [[rs s''] g''].
      cbn [fst snd In] in *. rewrite IH. split; [tauto|]. intros [Hf|Hin]; [discriminate | exact Hin].
Qed.

Lemma push_latch_is_some_pull_verdict_witness :
  let msgs := [tip_message 0 0 0 0; tip_message 0 0 (-1) 1] in
  let samples := [at_time 0 0 0 0; at_time 0 0 (-1) 1] in
  wf __init__ []
  /\ _check_ground_method __init__ = bound_tf_2_method
  /\ _ground_detected __init__ = false
  /\ Forall2 carries msgs samples
  /\ (_ground_detected (handle_all __init__ [] msgs).1 = true
      <-> In (Ok true) (detect_all __init__ [] (tick_of <$> samples)).1.1).
Proof.
  intros msgs samples.
  assert (Hcarry : Forall2 carries msgs samples).
  { repeat constructor; exists 1%nat; eexists; repeat split; reflexivity. }
  split; [apply wf_init|]. split; [reflexivity|]. split; [reflexivity|].
  split; [exact Hcarry|].
  exact (push_latch_is_some_pull_verdict msgs samples __init__ [] (wf_init []) eq_refl eq_refl Hcarry).
Defined.
